(** * ConvPhase: the [build_convphase] command of [setup.py]

    A shallow embedding of the class [BuildConvPhase] (setup.py, lines
    16-207) and the properties of its methods.  The command is glue code:
    it builds command lines and paths out of strings, reads and writes
    the process environment and the file system, and launches external
    programs.  The embedding therefore has four layers:

    - [Str]: the operations of Python's [str] the script uses;
    - [Path]: the part of [pathlib] (POSIX flavour) the script uses;
    - [Files], [Process], [Platform]: the state of the running process
      and the behaviour of everything outside the script;
    - the methods of [BuildConvPhase], written in a state and exception
      monad over the command object and the process.

    What the model leaves out: characters above code point 255; the
    Windows flavour of [pathlib]; symbolic links and permissions; what
    an external program does to the files (its outcome and its output
    are all that the script looks at); output of a program that is not
    valid UTF-8. *)

From Stdlib Require Import Ascii String ZArith Bool.
From stdpp Require Import base option list strings gmap.

Local Open Scope list_scope.

(** ** Python strings

    A [str] is modelled as a [string]; its characters are the code
    points below 256. *)

Module Str.

(** [c.isspace()], restricted to the code points below 256: the
    controls 9-13 and 28-31, the space, NEL (133) and the no-break
    space (160). *)
Definition isspace (c : ascii) : bool :=
  let n := nat_of_ascii c in
  ((9 <=? n) && (n <=? 13)) || ((28 <=? n) && (n <=? 32))
  || (n =? 133) || (n =? 160).

(** [s.lstrip()] *)
Fixpoint lstrip (s : string) : string :=
  match s with
  | String c s' => if isspace c then lstrip s' else s
  | EmptyString => EmptyString
  end.

(** [s.rstrip()] *)
Fixpoint rstrip (s : string) : string :=
  match s with
  | EmptyString => EmptyString
  | String c s' =>
      match rstrip s' with
      | EmptyString => if isspace c then EmptyString else String c EmptyString
      | r => String c r
      end
  end.

(** [s.strip()] *)
Definition strip (s : string) : string := rstrip (lstrip s).

(** [s.startswith(p)] *)
Fixpoint startswith (p s : string) : bool :=
  match p, s with
  | EmptyString, _ => true
  | String a p', String b s' => if Ascii.eqb a b then startswith p' s' else false
  | String _ _, EmptyString => false
  end.

(** [s[n:]] for [n >= 0] *)
Fixpoint drop (n : nat) (s : string) : string :=
  match n, s with
  | O, _ => s
  | S n', String _ s' => drop n' s'
  | S _, EmptyString => EmptyString
  end.

(** [s.split(sep)] for a separator of one character: never empty. *)
Fixpoint split (sep : ascii) (s : string) : list string :=
  match s with
  | EmptyString => [EmptyString]
  | String c s' =>
      if Ascii.eqb c sep then EmptyString :: split sep s'
      else match split sep s' with
           | w :: ws => String c w :: ws
           | [] => [String c EmptyString]
           end
  end.

(** [sep.join(l)] *)
Definition join (sep : string) (l : list string) : string :=
  String.concat sep l.

(** [c in s] *)
Fixpoint contains (c : ascii) (s : string) : bool :=
  match s with
  | EmptyString => false
  | String a s' => Ascii.eqb a c || contains c s'
  end.

End Str.

(** ** Paths

    [pathlib.Path] in its POSIX flavour: a root ([""] for a relative
    path, ["/"] or ["//"]) and the components after it.  Parsing drops
    empty components and ["."], and keeps [".."]. *)

Module Path.

Record t := mk { root : string; parts : list string }.

Definition is_component (x : string) : bool :=
  negb (String.eqb x "") && negb (String.eqb x ".").

(** the root of a string: exactly two leading slashes are kept, any
    other number of them is one slash *)
Definition splitroot (s : string) : string :=
  if Str.startswith "/" s then
    if Str.startswith "//" s && negb (Str.startswith "///" s) then "//" else "/"
  else "".

(** [Path(s)] *)
Definition parse (s : string) : t :=
  mk (splitroot s) (List.filter is_component (Str.split "/" s)).

(** [Path()] *)
Definition empty : t := mk "" [].

Definition is_absolute (p : t) : bool := negb (String.eqb (root p) "").

(** [p / q]: an absolute right operand replaces the left one *)
Definition joinpath (p q : t) : t :=
  if is_absolute q then q else mk (root p) (parts p ++ parts q).

(** [Path().joinpath] applied to all the segments *)
Definition of_segments (segments : list string) : t :=
  fold_left (fun p s => joinpath p (parse s)) segments empty.

(** [str(p)] *)
Definition str (p : t) : string :=
  match root p, parts p with
  | EmptyString, [] => "."
  | r, ps => r +:+ Str.join "/" ps
  end.

(** [p.name] *)
Definition name (p : t) : string := List.last (parts p) "".

(** [p.absolute()] in a process whose working directory is [cwd] *)
Definition absolute (cwd : string) (p : t) : t :=
  if is_absolute p then p else joinpath (parse cwd) p.

(** a single path component: what parsing keeps as it is *)
Definition simple (x : string) : bool :=
  is_component x && negb (Str.contains "/" x).

End Path.

Definition wf_root (r : string) : Prop := r = "" \/ r = "/" \/ r = "//".

(** the paths that parsing and joining produce: a root of at most two
    slashes, and components that are not empty, not ["."] and without a
    slash *)
Definition wf (p : Path.t) : Prop :=
  wf_root (Path.root p) /\ List.Forall (fun x => Path.simple x = true) (Path.parts p).

(** ** Exceptions *)

Inductive oserror := FileNotFoundError | FileExistsError | NotADirectoryError.

Inductive exn :=
| Exception (msg : string)
| IndexError
| TypeError
| AttributeError
| OSError (e : oserror)
| DistutilsPlatformError (msg : string).

Inductive result (A : Type) :=
| Ok (a : A)
| Raise (e : exn).
Arguments Ok {A} a.
Arguments Raise {A} e.

(** ** The file system

    A map from the components of an absolute path to the kind of the
    node there; the root is always a directory.  There are no symbolic
    links and no permissions. *)

Inductive node := File | Dir.

Abbreviation Files := (gmap (list string) node).

Module Fs.

Definition kind (fs : Files) (k : list string) : option node :=
  match k with
  | [] => Some Dir
  | _ => fs !! k
  end.

(** follow [comps] from the directory [cur]; every directory that is
    passed through has to exist *)
Fixpoint walk (fs : Files) (cur comps : list string) : oserror + list string :=
  match comps with
  | [] => inr cur
  | c :: rest =>
      match kind fs cur with
      | Some Dir => walk fs (if String.eqb c ".." then removelast cur else cur ++ [c]) rest
      | Some File => inl NotADirectoryError
      | None => inl FileNotFoundError
      end
  end.

Definition locate (fs : Files) (cwd : string) (p : Path.t) : oserror + list string :=
  walk fs (if Path.is_absolute p then [] else Path.parts (Path.parse cwd)) (Path.parts p).

(** [p.exists()] *)
Definition exists_ (fs : Files) (cwd : string) (p : Path.t) : bool :=
  match locate fs cwd p with
  | inr k => match kind fs k with Some _ => true | None => false end
  | inl _ => false
  end.

(** [p.is_dir()] *)
Definition is_dir (fs : Files) (cwd : string) (p : Path.t) : bool :=
  match locate fs cwd p with
  | inr k => match kind fs k with Some Dir => true | _ => false end
  | inl _ => false
  end.

(** the names in the directory at [k] *)
Definition entries (fs : Files) (k : list string) : list string :=
  omap (fun kv : list string * node =>
          match fst kv with
          | [] => None
          | k' => if bool_decide (removelast k' = k) then Some (List.last k' "") else None
          end)
       (map_to_list fs).

(** [p.iterdir()], as the list of the paths it yields *)
Definition iterdir (fs : Files) (cwd : string) (p : Path.t) : oserror + list Path.t :=
  match locate fs cwd p with
  | inl e => inl e
  | inr k =>
      match kind fs k with
      | Some Dir => inr (map (fun x => Path.joinpath p (Path.parse x)) (entries fs k))
      | Some File => inl NotADirectoryError
      | None => inl FileNotFoundError
      end
  end.

(** [os.mkdir(p)] *)
Definition os_mkdir (fs : Files) (cwd : string) (p : Path.t) : oserror + Files :=
  match locate fs cwd p with
  | inr k =>
      match kind fs k with
      | Some _ => inl FileExistsError
      | None =>
          match kind fs (removelast k) with
          | Some Dir => inr (<[k := Dir]> fs)
          | Some File => inl NotADirectoryError
          | None => inl FileNotFoundError
          end
      end
  | inl e => inl e
  end.

(** [p.mkdir(parents=True, exist_ok=True)] by recursion on the
    components of [p] in reverse: a missing parent is made first, and
    any other failure is accepted when [p] is a directory already. *)
Fixpoint mkdir_from (fs : Files) (cwd : string) (r : string) (rparts : list string)
  : oserror + Files :=
  let p := Path.mk r (rev rparts) in
  match os_mkdir fs cwd p with
  | inr fs' => inr fs'
  | inl FileNotFoundError =>
      match rparts with
      | [] => inl FileNotFoundError
      | _ :: rparent =>
          match mkdir_from fs cwd r rparent with
          | inl e => inl e
          | inr fs1 =>
              match os_mkdir fs1 cwd p with
              | inr fs2 => inr fs2
              | inl FileNotFoundError => inl FileNotFoundError
              | inl e => if is_dir fs1 cwd p then inr fs1 else inl e
              end
          end
      end
  | inl e => if is_dir fs cwd p then inr fs else inl e
  end.

Definition mkdir_parents (fs : Files) (cwd : string) (p : Path.t) : oserror + Files :=
  mkdir_from fs cwd (Path.root p) (rev (Path.parts p)).

(** whether [p] can be made, and the files once it is *)
Definition can_make (fs : Files) (cwd : string) (p : Path.t) : bool :=
  match mkdir_parents fs cwd p with
  | inr _ => true
  | inl _ => false
  end.
Definition made (fs : Files) (cwd : string) (p : Path.t) : Files :=
  match mkdir_parents fs cwd p with
  | inr fs' => fs'
  | inl _ => fs
  end.

End Fs.

(** ** The process and what lies outside the script *)

(** the two functions of the [subprocess] module the script passes
    around *)
Inductive func := check_call | check_output.

(** the [arg] of [BuildConvPhase.subprocess]: a list of strings, one
    string, or any other object *)
Inductive arg :=
| ArgList (l : list string)
| ArgStr (s : string)
| ArgOther.

(** what [func(arg)] does: it returns (for [check_output], the decoded
    text of the standard output), raises [OSError] because the program
    could not be started, or raises [CalledProcessError] because the
    program returned a non-zero status *)
Inductive outcome :=
| Completed (out : string)
| NotStarted
| NonZeroExit.

(** the value [BuildConvPhase.subprocess] returns: the text for
    [check_output], the status 0 for [check_call] *)
Inductive pyval :=
| PyStr (s : string)
| PyInt (z : Z).

Record Process := mkProcess {
  environ : gmap string string;      (* os.environ *)
  cwd : string;                      (* os.getcwd() *)
  files : Files;
  stdout : list string;              (* what print() wrote, line by line *)
  launched : list (func * arg)       (* the external programs run so far *)
}.

(** Everything the script calls and [setup.py] does not define:
    [encodekey] is how [os.environ] spells a key (the identity on POSIX,
    upper case on Windows); [exec] is the behaviour of the external
    programs; [msvc14_get_vc_env] is the toolchain resolver of
    setuptools, which returns the variables in order or raises;
    [get_config_var] and [get_python_inc] are those of [sysconfig];
    [get_package_dir] is the one of the finalised [build_py] command;
    [build_options] is the pair [(build_lib, plat_name)] of the
    finalised [build] command.  An external program is observed through
    its outcome only; what it does to the files is not modelled. *)
Record Platform := mkPlatform {
  encodekey : string -> string;
  exec : func -> arg -> Process -> outcome;
  msvc14_get_vc_env : string -> Process -> result (list (string * string));
  get_config_var : string -> option string;
  get_python_inc : bool -> string;
  exec_prefix : string;
  base_exec_prefix : string;
  get_package_dir : string -> string;
  build_options : string * string
}.

(** the same platform with another package-directory resolver *)
Definition with_get_package_dir (g : string -> string) (p : Platform) : Platform :=
  mkPlatform (encodekey p) (exec p) (msvc14_get_vc_env p) (get_config_var p)
             (get_python_inc p) (exec_prefix p) (base_exec_prefix p) g (build_options p).

(** the attributes of the command object *)
Record Command := mkCommand {
  name : string;
  hxcpp_includes : list Path.t;
  python_includes : list Path.t;
  python_libs : list Path.t;
  build_lib : option string;
  plat_name : option string;
  windows : bool;
  inplace : Z
}.

Record State := mkState { self : Command; proc : Process }.

Definition with_hxcpp_includes (l : list Path.t) (c : Command) : Command :=
  mkCommand (name c) l (python_includes c) (python_libs c)
            (build_lib c) (plat_name c) (windows c) (inplace c).
Definition with_python_includes (l : list Path.t) (c : Command) : Command :=
  mkCommand (name c) (hxcpp_includes c) l (python_libs c)
            (build_lib c) (plat_name c) (windows c) (inplace c).
Definition with_python_libs (l : list Path.t) (c : Command) : Command :=
  mkCommand (name c) (hxcpp_includes c) (python_includes c) l
            (build_lib c) (plat_name c) (windows c) (inplace c).
Definition with_build_lib (b : option string) (c : Command) : Command :=
  mkCommand (name c) (hxcpp_includes c) (python_includes c) (python_libs c)
            b (plat_name c) (windows c) (inplace c).
Definition with_plat_name (p : option string) (c : Command) : Command :=
  mkCommand (name c) (hxcpp_includes c) (python_includes c) (python_libs c)
            (build_lib c) p (windows c) (inplace c).
Definition with_windows (w : bool) (c : Command) : Command :=
  mkCommand (name c) (hxcpp_includes c) (python_includes c) (python_libs c)
            (build_lib c) (plat_name c) w (inplace c).
Definition with_inplace (i : Z) (c : Command) : Command :=
  mkCommand (name c) (hxcpp_includes c) (python_includes c) (python_libs c)
            (build_lib c) (plat_name c) (windows c) i.

Definition with_environ (e : gmap string string) (p : Process) : Process :=
  mkProcess e (cwd p) (files p) (stdout p) (launched p).
Definition with_files (f : Files) (p : Process) : Process :=
  mkProcess (environ p) (cwd p) f (stdout p) (launched p).
Definition with_stdout (o : list string) (p : Process) : Process :=
  mkProcess (environ p) (cwd p) (files p) o (launched p).
Definition with_launched (l : list (func * arg)) (p : Process) : Process :=
  mkProcess (environ p) (cwd p) (files p) (stdout p) l.

(** ** The state and exception monad

    A raised exception keeps the state it was raised in: what Python
    changed before the [raise] stays changed. *)

Definition M (A : Type) : Type := State -> result A * State.

Definition ret {A} (a : A) : M A := fun st => (Ok a, st).
Definition raise {A} (e : exn) : M A := fun st => (Raise e, st).
Definition bind {A B} (m : M A) (k : A -> M B) : M B :=
  fun st =>
    match m st with
    | (Ok a, st') => k a st'
    | (Raise e, st') => (Raise e, st')
    end.
Definition get : M State := fun st => (Ok st, st).
Definition lift {A} (r : result A) : M A := fun st => (r, st).
Definition modify_self (f : Command -> Command) : M unit :=
  fun st => (Ok tt, mkState (f (self st)) (proc st)).
Definition modify_proc (f : Process -> Process) : M unit :=
  fun st => (Ok tt, mkState (self st) (f (proc st))).

Declare Scope py_scope.
Delimit Scope py_scope with py.
Notation "x <- m ;; k" := (bind m (fun x => k))
  (at level 100, m at next level, right associativity) : py_scope.
Notation "m ;; k" := (bind m (fun _ => k))
  (at level 100, right associativity) : py_scope.
Local Open Scope py_scope.

(** [print(s)] *)
Definition print (s : string) : M unit :=
  modify_proc (fun p => with_stdout (stdout p ++ [s]) p).

(** the double quote, which the command line of premake contains *)
Definition dquote : string := String "034"%char EmptyString.

(** [os.environ.get(k)] and [os.environ.update(new)] *)
Definition environ_get (encode : string -> string) (k : string)
    (env : gmap string string) : option string :=
  env !! encode k.
Definition environ_update (encode : string -> string)
    (new : list (string * string)) (env : gmap string string) : gmap string string :=
  fold_left (fun m kv => <[encode (fst kv) := snd kv]> m) new env.

(** ** The methods of [BuildConvPhase] *)

Section BuildConvPhase.

Variable plat : Platform.

(** the call [func(arg)] itself: the program run is recorded *)
Definition call (f : func) (a : arg) : M outcome :=
  fun st =>
    (Ok (exec plat f a (proc st)),
     mkState (self st) (with_launched (launched (proc st) ++ [(f, a)]) (proc st))).

(** [initialize_options], lines 29-38 *)
Definition initialize_options : M unit :=
  modify_self (fun _ =>
    mkCommand "itaxotools.convphase.convphase" [] [] [] None None false 0).

(** the [command] and the [tool] of [subprocess], lines 58-65 *)
Definition command_and_tool (a : arg) : result (string * string) :=
  match a with
  | ArgList l =>
      match l with
      | tool :: _ => Ok (Str.join " " l, tool)
      | [] => Raise IndexError
      end
  | ArgStr s =>
      match Str.split " " s with
      | tool :: _ => Ok (s, tool)
      | [] => Raise IndexError
      end
  | ArgOther => Raise (Exception "Bad subprocess arguments")
  end.

(** the message of line 75: [missing or default] takes the default
    for [None] and for the empty string *)
Definition missing_message (missing : option string) (tool : string) : string :=
  match missing with
  | None | Some EmptyString =>
      "Couldn't find " +:+ tool +:+ ", is " +:+ tool +:+ " installed?"
  | Some m => m
  end.

(** [subprocess], lines 57-78 *)
Definition subprocess (f : func) (a : arg) (error : string)
    (missing : option string) : M pyval :=
  ct <- lift (command_and_tool a) ;;
  let command := fst ct in
  let tool := snd ct in
  print command ;;
  r <- call f a ;;
  match r with
  | Completed out =>
      match f with
      | check_output => print out ;; ret (PyStr out)
      | check_call => ret (PyInt 0)
      end
  | NotStarted => raise (Exception (missing_message missing tool))
  | NonZeroExit => raise (Exception error)
  end.

(** [set_environ], lines 80-87 *)
Definition set_environ : M unit :=
  st <- get ;;
  match plat_name (self st) with
  | None => raise AttributeError
  | Some plat_name =>
      if Str.startswith "win-" plat_name then
        print "Loading MSVC environment..." ;;
        let plat_name := Str.drop (String.length "win-") plat_name in
        st <- get ;;
        match msvc14_get_vc_env plat plat_name (proc st) with
        | Raise e => raise e
        | Ok env =>
            modify_proc (fun p => with_environ (environ_update (encodekey plat) env (environ p)) p) ;;
            modify_self (with_windows true)
        end
      else ret tt
  end.

(** the loop of [git_submodules_initialized], lines 96-99 *)
Fixpoint no_uninitialized (submodules : list string) : bool :=
  match submodules with
  | [] => true
  | submodule :: rest =>
      if Str.startswith "-" (Str.strip submodule) then false
      else no_uninitialized rest
  end.

Definition git_status : arg := ArgList ["git"; "submodule"; "status"].
Definition git_update : arg :=
  ArgList ["git"; "submodule"; "update"; "--init"; "--recursive"].

(** [git_submodules_initialized], lines 89-99 *)
Definition git_submodules_initialized : M bool :=
  output <- subprocess check_output git_status
              "Couldn't check git submodule status" None ;;
  match output with
  | PyStr output =>
      let submodules := Str.split "010" output in
      ret (no_uninitialized submodules)
  | PyInt _ => raise AttributeError
  end.

(** [update_git_submodules], lines 101-106 *)
Definition update_git_submodules : M unit :=
  initialized <- git_submodules_initialized ;;
  if negb initialized then
    subprocess check_call git_update "Couldn't initialize git submodules" None ;;
    ret tt
  else ret tt.

(** [any(l)] for a list of paths: every path object is true *)
Definition any_path (l : list Path.t) : bool := existsb (fun _ => true) l.

Definition haxelib_libpath : arg := ArgList ["haxelib"; "libpath"; "hxcpp"].

(** the path [Path(hxcpp) / 'include'] of lines 115-116 *)
Definition hxcpp_include_path (output : string) : Path.t :=
  let hxcpp := Str.strip output in
  Path.joinpath (Path.parse hxcpp) (Path.parse "include").

(** [find_hxcpp_includes], lines 108-119 *)
Definition find_hxcpp_includes : M unit :=
  output <- subprocess check_output haxelib_libpath
              "Couldn't find hxcpp libpath, is hxcpp installed? (haxelib install hxcpp)"
              (Some "Couldn't find haxelib, is haxe installed?") ;;
  match output with
  | PyStr output =>
      let path := hxcpp_include_path output in
      st <- get ;;
      let fs := files (proc st) in
      let wd := cwd (proc st) in
      let bad := raise (Exception ("Bad hxcpp include: " +:+ Path.str path)) in
      if negb (Fs.exists_ fs wd path) then bad
      else
        match Fs.iterdir fs wd path with
        | inl e => raise (OSError e)
        | inr children =>
            if negb (any_path children) then bad
            else modify_self (fun c => with_hxcpp_includes (hxcpp_includes c ++ [path]) c)
        end
  | PyInt _ => raise AttributeError
  end.

(** [find_python_includes], lines 121-131.  The variable [includes]
    holds a string at first and a path inside a virtual environment;
    a string and a path are never equal. *)
Definition find_python_includes : M unit :=
  let includes := get_python_inc plat false in
  modify_self (fun c => with_python_includes (python_includes c ++ [Path.parse includes]) c) ;;
  includes <-
    (if negb (String.eqb (exec_prefix plat) (base_exec_prefix plat)) then
       let includes := Path.joinpath (Path.parse (exec_prefix plat)) (Path.parse "include") in
       modify_self (fun c => with_python_includes (python_includes c ++ [includes]) c) ;;
       ret (inr includes)
     else ret (inl includes)) ;;
  let plat_includes := get_python_inc plat true in
  let differs :=
    match includes : string + Path.t with
    | inl s => negb (String.eqb plat_includes s)
    | inr _ => true
    end in
  if differs then
    modify_self (fun c => with_python_includes (python_includes c ++ [Path.parse plat_includes]) c)
  else ret tt.

(** [find_python_libs], lines 133-135 *)
Definition find_python_libs : M unit :=
  let libs := Path.joinpath (Path.parse (base_exec_prefix plat)) (Path.parse "libs") in
  modify_self (fun c => with_python_libs (python_libs c ++ [libs]) c).

(** [finalize_options], lines 40-49: an option still undefined takes
    the value of the [build] command *)
Definition finalize_options : M unit :=
  modify_self (fun c =>
    match build_lib c with
    | None => with_build_lib (Some (fst (build_options plat))) c
    | Some _ => c
    end) ;;
  modify_self (fun c =>
    match plat_name c with
    | None => with_plat_name (Some (snd (build_options plat))) c
    | Some _ => c
    end) ;;
  find_hxcpp_includes ;;
  find_python_includes ;;
  find_python_libs.

(** [get_target_filename], lines 137-139: adding [None] to a string
    is a [TypeError] *)
Definition get_target_filename (name : string) : M string :=
  match get_config_var plat "EXT_SUFFIX" with
  | Some suffix => ret (name +:+ suffix)
  | None => raise TypeError
  end.

(** [package_path.mkdir(parents=True, exist_ok=True)] *)
Definition mkdir (p : Path.t) : M unit :=
  st <- get ;;
  match Fs.mkdir_parents (files (proc st)) (cwd (proc st)) p with
  | inl e => raise (OSError e)
  | inr fs => modify_proc (with_files fs)
  end.

(** the [package_path] of [get_target_path], lines 145-153, for the
    segments [init] before the last one *)
Definition target_package_path (c : Command) (init : list string) : result Path.t :=
  if Z.eqb (inplace c) 0 then
    match build_lib c with
    | None => Raise TypeError
    | Some build_lib =>
        let build_path := Path.parse build_lib in
        let module_path := Path.of_segments init in
        Ok (Path.joinpath build_path module_path)
    end
  else
    let package := Str.join "." init in
    let package_dir := get_package_dir plat package in
    Ok (Path.parse package_dir).

(** [get_target_path], lines 141-156 *)
Definition get_target_path : M string :=
  st <- get ;;
  let parts := Str.split "." (name (self st)) in
  match last parts with
  | None => raise IndexError
  | Some leaf =>
      filename <- get_target_filename leaf ;;
      package_path <- lift (target_package_path (self st) (removelast parts)) ;;
      mkdir package_path ;;
      st <- get ;;
      ret (Path.str (Path.absolute (cwd (proc st))
                       (Path.joinpath package_path (Path.parse filename))))
  end.

(** [version == s] for a [version] that is a string or [None] *)
Definition eq_str (version : option string) (s : string) : bool :=
  match version with
  | Some v => String.eqb v s
  | None => false
  end.

(** the choice of [action] in [premake], lines 160-169 *)
Definition premake_action : M string :=
  st <- get ;;
  if windows (self st) then
    let version := environ_get (encodekey plat) "VisualStudioVersion" (environ (proc st)) in
    if eq_str version "16.0" then ret "vs2019"
    else if eq_str version "17.0" then ret "vs2022"
    else raise (Exception "Cannot determine Visual Studio version")
  else ret "gmake2".

(** the string [includes] of lines 175-178 *)
Definition premake_includes (c : Command) : string :=
  let includes := python_includes c ++ hxcpp_includes c in
  Str.join ";" (map Path.str includes).

(** the command of [premake] up to the target, lines 173-185 *)
Definition premake_command (action : string) (c : Command) : string :=
  let command := "premake5 " +:+ action in
  let command :=
    match python_includes c ++ hxcpp_includes c with
    | [] => command
    | _ => command +:+ " --includedirs=" +:+ dquote +:+ premake_includes c +:+ dquote
    end in
  match python_libs c with
  | [] => command
  | libs => command +:+ " --libdirs=" +:+ dquote +:+ Str.join ";" (map Path.str libs) +:+ dquote
  end.

(** [premake], lines 158-193 *)
Definition premake : M unit :=
  action <- premake_action ;;
  st <- get ;;
  let command := premake_command action (self st) in
  target <- get_target_path ;;
  let command := command +:+ " --target=" +:+ dquote +:+ target +:+ dquote in
  subprocess check_call (ArgStr command)
    ("premake failed for action: " +:+ action) None ;;
  ret tt.

(** [build], lines 195-207 *)
Definition build : M unit :=
  st <- get ;;
  let tc :=
    if windows (self st) then
      let tool := "msbuild" in (tool, tool +:+ " /p:Configuration=Release")
    else
      let tool := "make" in (tool, tool) in
  let tool := fst tc in
  let command := snd tc in
  subprocess check_call (ArgStr command)
    ("Building with " +:+ tool +:+ " failed!")
    (Some ("Couldn't find build tool: " +:+ tool)) ;;
  ret tt.

(** [run], lines 51-55 *)
Definition run : M unit :=
  update_git_submodules ;;
  set_environ ;;
  premake ;;
  build.

End BuildConvPhase.

(** ** Concrete platforms and processes

    The hosts the statements below are evaluated on. *)

Module Scenario.

Definition upper_ascii (c : ascii) : ascii :=
  let n := nat_of_ascii c in
  if (97 <=? n) && (n <=? 122) then ascii_of_nat (n - 32) else c.

Fixpoint upper (s : string) : string :=
  match s with
  | EmptyString => EmptyString
  | String c s' => String (upper_ascii c) (upper s')
  end.

(** external programs: [git submodule status] prints [status],
    [haxelib libpath hxcpp] does [libpath], and [build_tool] is what
    the build tool does; everything else succeeds silently *)
Definition programs (status : string) (libpath build_tool : outcome)
    (f : func) (a : arg) (_ : Process) : outcome :=
  match a with
  | ArgList ["git"; "submodule"; "status"] => Completed status
  | ArgList ["haxelib"; "libpath"; "hxcpp"] => libpath
  | ArgStr "make" | ArgStr "msbuild /p:Configuration=Release" => build_tool
  | _ => Completed ""
  end.

Definition ext_suffix (v : string) : option string :=
  if String.eqb v "EXT_SUFFIX" then Some ".cpython-310-x86_64-linux-gnu.so" else None.

(** a Linux host with the sources laid out under [src] *)
Definition posix (status : string) (libpath build_tool : outcome) : Platform :=
  mkPlatform (fun k => k)
    (programs status libpath build_tool)
    (fun _ _ => Raise (DistutilsPlatformError "Microsoft Visual C++ 14.0 or greater is required."))
    ext_suffix
    (fun _ => "/usr/include/python3.10")
    "/usr" "/usr"
    (fun _ => "src/itaxotools/convphase")
    ("build/lib.linux-x86_64-3.10", "linux-x86_64").

Definition linux : Platform :=
  posix " 0a1b2c3 src/convphase (heads/main)" (Completed "/opt/hxcpp/
") (Completed "").

(** a Windows host: [os.environ] spells its keys in upper case, and
    the resolver answers for [amd64] only (the statements evaluated on
    it do not depend on its paths) *)
Definition win : Platform :=
  mkPlatform upper
    (programs "-0a1b2c3 src/convphase" (Completed "C:/HaxeToolkit/hxcpp") (Completed ""))
    (fun plat_spec _ =>
       if String.eqb plat_spec "amd64" then
         Ok [("visualstudioversion", "16.0"); ("include", "C:/VC/include")]
       else Raise (DistutilsPlatformError "Microsoft Visual C++ 14.0 or greater is required."))
    (fun v => if String.eqb v "EXT_SUFFIX" then Some ".cp310-win_amd64.pyd" else None)
    (fun _ => "C:/Python310/include")
    "C:/Python310" "C:/Python310"
    (fun _ => "src/itaxotools/convphase")
    ("build/lib.win-amd64-3.10", "win-amd64").

Definition tree : Files :=
  list_to_map
    [ (["opt"], Dir); (["opt"; "hxcpp"], Dir); (["opt"; "hxcpp"; "include"], Dir);
      (["opt"; "hxcpp"; "include"; "hxcpp.h"], File);
      (["home"], Dir); (["home"; "u"], Dir); (["home"; "u"; "ConvPhase"], Dir) ].

(** the same tree with a populated [include] in the working directory *)
Definition tree_with_include : Files :=
  <[ ["home"; "u"; "ConvPhase"; "include"; "convphase.h"] := File ]>
    (<[ ["home"; "u"; "ConvPhase"; "include"] := Dir ]> tree).

Definition process (fs : Files) : Process :=
  mkProcess (<["PATH" := "/usr/bin"]> ∅) "/home/u/ConvPhase" fs [] [].

(** the command object as [initialize_options] leaves it *)
Definition fresh : Command :=
  mkCommand "itaxotools.convphase.convphase" [] [] [] None None false 0.

(** the command object after the options of a Linux build were
    resolved *)
Definition finalized : Command :=
  mkCommand "itaxotools.convphase.convphase"
    [Path.parse "/opt/hxcpp/include"] [Path.parse "/usr/include/python3.10"]
    [Path.parse "/usr/libs"]
    (Some "build/lib.linux-x86_64-3.10") (Some "linux-x86_64") false 0.

Definition start : State := mkState finalized (process tree).

Definition start_inplace : State :=
  mkState (with_inplace 1 finalized) (process tree).

Definition start_win : State :=
  mkState (with_plat_name (Some "win-amd64") finalized) (process tree).

(** the files after [p] and its missing parents were made *)
Definition after_mkdir (st : State) (p : Path.t) : Files :=
  Fs.made (files (proc st)) (cwd (proc st)) p.

(** a host where [git submodule status] prints one line, indented,
    for a submodule that is not initialised *)
Definition indented_status : Platform :=
  posix " -0a1b2c3 src/convphase" (Completed "/opt/hxcpp") (Completed "").

(** a host where one of two submodules is not initialised *)
Definition uninitialized : Platform :=
  posix " 0a1b2c3 src/convphase (heads/main)
-4d5e6f7 src/hxcpp
" (Completed "/opt/hxcpp") (Completed "").

(** a host where [haxelib libpath hxcpp] prints nothing, and the
    process in a working directory that has a populated [include] *)
Definition silent_haxelib : Platform := posix "" (Completed "") (Completed "").
Definition start_with_include : State := mkState fresh (process tree_with_include).

(** the Windows build once [set_environ] has run *)
Definition win_ready : State := snd (set_environ win start_win).

(** a host where [haxelib] is not installed, one where it fails, and
    one where neither build tool is installed *)
Definition no_haxelib : Platform := posix "" NotStarted (Completed "").
Definition failing_haxelib : Platform := posix "" NonZeroExit (Completed "").
Definition no_make : Platform := posix "" (Completed "/opt/hxcpp") NotStarted.

(** a host where the generator runs and fails, and one where it is not
    installed *)
Definition generator (o : outcome) (f : func) (a : arg) (p : Process) : outcome :=
  match a with
  | ArgStr s =>
      if Str.startswith "premake5 " s then o
      else programs "" (Completed "/opt/hxcpp") (Completed "") f a p
  | _ => programs "" (Completed "/opt/hxcpp") (Completed "") f a p
  end.
Definition with_exec (e : func -> arg -> Process -> outcome) (p : Platform) : Platform :=
  mkPlatform (encodekey p) e (msvc14_get_vc_env p) (get_config_var p)
             (get_python_inc p) (exec_prefix p) (base_exec_prefix p)
             (get_package_dir p) (build_options p).
Definition failing_premake : Platform := with_exec (generator NonZeroExit) linux.
Definition no_premake : Platform := with_exec (generator NotStarted) linux.

(** a host where git is not installed, and one where the status query
    fails *)
Definition git (o : outcome) (f : func) (a : arg) (p : Process) : outcome :=
  match a with
  | ArgList ("git" :: _) => o
  | _ => programs "" (Completed "/opt/hxcpp") (Completed "") f a p
  end.
Definition no_git : Platform := with_exec (git NotStarted) linux.
Definition failing_git : Platform := with_exec (git NonZeroExit) linux.

(** a host where the status query shows a submodule to initialise and
    the update fails *)
Definition failing_update : Platform :=
  with_exec (fun f a p =>
               match a with
               | ArgList ["git"; "submodule"; "status"] => Completed "-4d5e6f7 src/hxcpp"
               | _ => git NonZeroExit f a p
               end) linux.

(** a Linux host inside a virtual environment whose two include
    directories are the same *)
Definition venv : Platform :=
  mkPlatform (fun k => k)
    (programs "" (Completed "/opt/hxcpp") (Completed ""))
    (fun _ _ => Raise (DistutilsPlatformError "Microsoft Visual C++ 14.0 or greater is required."))
    ext_suffix
    (fun _ => "/usr/include/python3.10")
    "/home/u/venv" "/usr"
    (fun _ => "src/itaxotools/convphase")
    ("build/lib.linux-x86_64-3.10", "linux-x86_64").

(** a tree where the include path of hxcpp is a regular file *)
Definition tree_with_include_file : Files :=
  <[ ["opt"; "hxcpp"; "include"] := File ]> tree.


(** a host whose Python has no extension suffix *)
Definition no_suffix : Platform :=
  mkPlatform (fun k => k)
    (programs "" (Completed "/opt/hxcpp") (Completed ""))
    (fun _ _ => Raise (DistutilsPlatformError "Microsoft Visual C++ 14.0 or greater is required."))
    (fun _ => None)
    (fun _ => "/usr/include/python3.10")
    "/usr" "/usr"
    (fun _ => "src/itaxotools/convphase")
    ("build/lib.linux-x86_64-3.10", "linux-x86_64").

(** the command object with a target name of one segment *)
Definition flat : Command :=
  mkCommand "convphase" [] [] [] (Some "/tmp/out") (Some "linux-x86_64") false 0.

End Scenario.

(** * Properties *)

(** ** Strings *)

Section StrFacts.

Lemma append_nil_l (s : string) : "" +:+ s = s.
Proof. reflexivity. Qed.

Lemma append_cons (c : ascii) (a b : string) : String c a +:+ b = String c (a +:+ b).
Proof. reflexivity. Qed.

Lemma append_nil_r (s : string) : s +:+ "" = s.
Proof. induction s as [|c s IH]; [reflexivity | now rewrite append_cons, IH]. Qed.

Lemma append_assoc (a b c : string) : (a +:+ b) +:+ c = a +:+ (b +:+ c).
Proof.
  induction a as [|x a IH]; [reflexivity|].
  now rewrite !append_cons, IH.
Qed.

Lemma startswith_drop (p s : string) :
  Str.startswith p s = true -> s = p +:+ Str.drop (String.length p) s.
Proof.
  revert s; induction p as [|a p IH]; intros s H; simpl in *; [reflexivity|].
  destruct s as [|b s]; [discriminate|].
  destruct (Ascii.eqb a b) eqn:E; [|discriminate].
  apply Ascii.eqb_eq in E; subst b.
  rewrite append_cons. f_equal. now apply IH.
Qed.

(** a string that starts with a character that is not white space
    keeps it when stripped *)
Lemma strip_keeps_head (c : ascii) (s : string) :
  Str.isspace c = false -> exists r, Str.strip (String c s) = String c r.
Proof.
  intros Hc. unfold Str.strip. simpl. rewrite Hc. simpl.
  destruct (Str.rstrip s) eqn:E.
  - rewrite Hc. now exists EmptyString.
  - eexists; reflexivity.
Qed.

Lemma startswith_dash_strip (s : string) :
  Str.startswith "-" s = true -> Str.startswith "-" (Str.strip s) = true.
Proof.
  destruct s as [|b s]; [discriminate|]. intros H.
  change (Str.startswith "-" (String b s))
    with (if Ascii.eqb "-" b then true else false) in H.
  destruct (Ascii.eqb "-" b) eqn:E; [|discriminate].
  apply Ascii.eqb_eq in E; subst b.
  destruct (strip_keeps_head "-" s eq_refl) as [r Hr].
  rewrite Hr. reflexivity.
Qed.

Lemma split_not_nil (sep : ascii) (s : string) : Str.split sep s <> [].
Proof.
  destruct s as [|c s]; simpl; [discriminate|].
  destruct (Ascii.eqb c sep); [discriminate|].
  destruct (Str.split sep s); discriminate.
Qed.

(** no piece of a split string contains the separator *)
Lemma split_no_sep (sep : ascii) (s : string) :
  Forall (fun x => Str.contains sep x = false) (Str.split sep s).
Proof.
  induction s as [|c s IH]; simpl.
  - repeat constructor.
  - destruct (Ascii.eqb c sep) eqn:E.
    + constructor; [reflexivity | exact IH].
    + destruct (Str.split sep s) as [|w ws]; simpl.
      * repeat constructor. simpl. now rewrite E.
      * inversion IH; subst. constructor; [|assumption].
        simpl. now rewrite E.
Qed.

Lemma split_no_sep_id (sep : ascii) (s : string) :
  Str.contains sep s = false -> Str.split sep s = [s].
Proof.
  induction s as [|c s IH]; simpl; [reflexivity|].
  intros H. apply orb_false_iff in H as [H1 H2].
  rewrite H1, (IH H2). reflexivity.
Qed.

(** splitting distributes over a separator in the middle *)
Lemma split_app_sep (sep : ascii) (a b : string) :
  Str.split sep (a +:+ String sep b) = Str.split sep a ++ Str.split sep b.
Proof.
  induction a as [|c a IH].
  - rewrite append_nil_l. simpl. now rewrite Ascii.eqb_refl.
  - rewrite append_cons. simpl.
    destruct (Ascii.eqb c sep); rewrite IH; [reflexivity|].
    destruct (Str.split sep a) eqn:E; [|reflexivity].
    now apply split_not_nil in E.
Qed.

Lemma join_cons (sep x y : string) (l : list string) :
  Str.join sep (x :: y :: l) = x +:+ sep +:+ Str.join sep (y :: l).
Proof. reflexivity. Qed.

(** [sep.join(l).split(sep)] gives [l] back when [l] is not empty and
    no element contains the separator *)
Lemma split_join (sep : ascii) (l : list string) :
  l <> [] ->
  Forall (fun x => Str.contains sep x = false) l ->
  Str.split sep (Str.join (String sep "") l) = l.
Proof.
  induction l as [|x l IH]; intros Hne Hall; [congruence|].
  inversion Hall as [|? ? Hx Hl]; subst.
  destruct l as [|y l].
  - simpl. now apply split_no_sep_id.
  - rewrite join_cons, append_cons, append_nil_l.
    rewrite split_app_sep, (split_no_sep_id _ _ Hx), IH; [reflexivity|discriminate|assumption].
Qed.

Lemma join_app (sep : string) (l1 l2 : list string) :
  l1 <> [] -> l2 <> [] ->
  Str.join sep (l1 ++ l2) = Str.join sep l1 +:+ sep +:+ Str.join sep l2.
Proof.
  induction l1 as [|x l1 IH]; intros H1 H2; [congruence|].
  destruct l1 as [|y l1].
  - destruct l2; [congruence|]. reflexivity.
  - change ((x :: y :: l1) ++ l2) with (x :: y :: (l1 ++ l2)).
    rewrite !join_cons.
    change (y :: (l1 ++ l2)) with ((y :: l1) ++ l2).
    rewrite IH by (assumption || discriminate).
    now rewrite !append_assoc.
Qed.

End StrFacts.

(** ** The environment *)

Section EnvironFacts.

Variable encode : string -> string.

(** a variable the update does not name keeps its value *)
Lemma environ_update_other (new : list (string * string)) (env : gmap string string) (j : string) :
  (forall kv, In kv new -> encode (fst kv) <> j) ->
  environ_update encode new env !! j = env !! j.
Proof.
  revert env; induction new as [|kv new IH]; intros env H; [reflexivity|].
  unfold environ_update in *. simpl.
  rewrite IH by (intros ? ?; apply H; now right).
  apply lookup_insert_ne. apply H. now left.
Qed.

(** a variable the update names once takes the new value *)
Lemma environ_update_in (new : list (string * string)) (env : gmap string string) (k v : string) :
  NoDup (map (fun kv => encode (fst kv)) new) ->
  In (k, v) new ->
  environ_get encode k (environ_update encode new env) = Some v.
Proof.
  revert env; induction new as [|kv new IH]; intros env Hnd Hin; [destruct Hin|].
  apply NoDup_cons in Hnd as [Hfresh Hnd].
  unfold environ_get, environ_update in *. simpl.
  destruct Hin as [->|Hin].
  - simpl. fold (environ_update encode new (<[encode k:=v]> env)).
    rewrite environ_update_other; [apply lookup_insert_eq|].
    intros kv Hkv Heq. apply Hfresh. simpl.
    apply list_elem_of_In, in_map_iff. now exists kv.
  - now apply IH.
Qed.

End EnvironFacts.

(** ** Running the methods *)

Ltac run_m :=
  unfold print, call, modify_self, modify_proc, lift, get, ret, raise, bind;
  cbn [fst snd self proc].

Lemma command_and_tool_str (s : string) :
  exists tool, command_and_tool (ArgStr s) = Ok (s, tool).
Proof.
  unfold command_and_tool.
  destruct (Str.split " " s) as [|tool rest] eqn:E.
  - now apply split_not_nil in E.
  - now exists tool.
Qed.

(** what [subprocess] does once the command is formed: the command is
    printed, the program is run once, and the outcome decides *)
Lemma subprocess_run (plat : Platform) (f : func) (a : arg) (error : string)
    (missing : option string) (st : State) (command tool : string) :
  command_and_tool a = Ok (command, tool) ->
  let printed := with_stdout (stdout (proc st) ++ [command]) (proc st) in
  let ran := with_launched (launched (proc st) ++ [(f, a)]) printed in
  subprocess plat f a error missing st =
    match exec plat f a printed with
    | Completed out =>
        match f with
        | check_output =>
            (Ok (PyStr out), mkState (self st) (with_stdout (stdout ran ++ [out]) ran))
        | check_call => (Ok (PyInt 0), mkState (self st) ran)
        end
    | NotStarted => (Raise (Exception (missing_message missing tool)), mkState (self st) ran)
    | NonZeroExit => (Raise (Exception error), mkState (self st) ran)
    end.
Proof.
  intros H. unfold subprocess. run_m. rewrite H. cbn [fst snd].
  destruct (exec plat f a _); [destruct f|..]; reflexivity.
Qed.

(** every run of [subprocess] on a well-formed argument starts exactly
    one program *)
Lemma subprocess_launched (plat : Platform) (f : func) (a : arg) (error : string)
    (missing : option string) (st : State) (command tool : string) :
  command_and_tool a = Ok (command, tool) ->
  launched (proc (snd (subprocess plat f a error missing st)))
  = launched (proc st) ++ [(f, a)].
Proof.
  intros H. rewrite (subprocess_run _ _ _ _ _ _ _ _ H).
  destruct (exec plat f a _); [destruct f|..]; reflexivity.
Qed.

(** ** [set_environ] *)

(** C10: for a platform name that does not start with [win-],
    [set_environ] returns with the whole state as it was: the process
    environment is unchanged and a windows flag that was false is still
    false. *)
Theorem set_environ_other_platform (plat : Platform) (st : State) (p : string) :
  plat_name (self st) = Some p ->
  Str.startswith "win-" p = false ->
  set_environ plat st = (Ok tt, st)
  /\ environ (proc (snd (set_environ plat st))) = environ (proc st)
  /\ (windows (self st) = false -> windows (self (snd (set_environ plat st))) = false).
Proof.
  intros Hp Hs.
  assert (E : set_environ plat st = (Ok tt, st)).
  { unfold set_environ. run_m. now rewrite Hp, Hs. }
  rewrite E. auto.
Qed.

Lemma set_environ_other_platform_witness :
  set_environ Scenario.linux Scenario.start = (Ok tt, Scenario.start)
  /\ environ (proc (snd (set_environ Scenario.linux Scenario.start)))
     = environ (proc Scenario.start)
  /\ (windows (self Scenario.start) = false ->
      windows (self (snd (set_environ Scenario.linux Scenario.start))) = false).
Proof.
  apply (set_environ_other_platform Scenario.linux Scenario.start "linux-x86_64");
    reflexivity.
Defined.

(** C3: for a platform name [win-<rest>], [set_environ] asks the
    toolchain resolver about [<rest>]; with the variables it returns,
    the process environment is updated (a variable not named keeps its
    value, a variable named takes the resolved value) and the windows
    flag is true. *)
Theorem set_environ_windows (plat : Platform) (st : State) (p : string) :
  plat_name (self st) = Some p ->
  Str.startswith "win-" p = true ->
  exists rest,
    p = "win-" +:+ rest /\
    let announced :=
      with_stdout (stdout (proc st) ++ ["Loading MSVC environment..."]) (proc st) in
    forall env,
      msvc14_get_vc_env plat rest announced = Ok env ->
      let environ' := environ_update (encodekey plat) env (environ (proc st)) in
      set_environ plat st
        = (Ok tt, mkState (with_windows true (self st)) (with_environ environ' announced))
      /\ windows (self (snd (set_environ plat st))) = true
      /\ environ (proc (snd (set_environ plat st))) = environ'
      /\ (forall k,
            (forall kv, In kv env -> encodekey plat (fst kv) <> encodekey plat k) ->
            environ_get (encodekey plat) k environ'
            = environ_get (encodekey plat) k (environ (proc st)))
      /\ (NoDup (map (fun kv => encodekey plat (fst kv)) env) ->
          forall k v, In (k, v) env -> environ_get (encodekey plat) k environ' = Some v).
Proof.
  intros Hp Hs. exists (Str.drop (String.length "win-") p). split.
  - now apply startswith_drop.
  - intros announced env Henv environ'.
    assert (E : set_environ plat st
                = (Ok tt, mkState (with_windows true (self st))
                                  (with_environ environ' announced))).
    { unfold set_environ. run_m. rewrite Hp, Hs. run_m.
      fold announced. now rewrite Henv. }
    rewrite E. repeat split.
    + intros k Hk. now apply environ_update_other.
    + intros Hnd k v Hin. now apply environ_update_in.
Qed.

Lemma set_environ_windows_witness :
  set_environ Scenario.win Scenario.start_win
  = (Ok tt,
     mkState (with_windows true (self Scenario.start_win))
       (with_environ
          (<["INCLUDE" := "C:/VC/include"]>
             (<["VISUALSTUDIOVERSION" := "16.0"]> (environ (proc Scenario.start_win))))
          (with_stdout ["Loading MSVC environment..."] (proc Scenario.start_win)))).
Proof.
  destruct (set_environ_windows Scenario.win Scenario.start_win "win-amd64"
              eq_refl eq_refl) as [rest [Hrest H]].
  apply (String.app_inj "win-") in Hrest. subst rest.
  apply (H [("visualstudioversion", "16.0"); ("include", "C:/VC/include")] eq_refl).
Defined.

(** when the resolver raises, its exception leaves [set_environ] and the
    windows flag is not touched *)
Lemma set_environ_resolver_raises (plat : Platform) (st : State) (p : string) (e : exn) :
  plat_name (self st) = Some p ->
  Str.startswith "win-" p = true ->
  let announced :=
    with_stdout (stdout (proc st) ++ ["Loading MSVC environment..."]) (proc st) in
  msvc14_get_vc_env plat (Str.drop 4 p) announced = Raise e ->
  set_environ plat st = (Raise e, mkState (self st) announced).
Proof.
  intros Hp Hs announced He. unfold set_environ. run_m. rewrite Hp, Hs. run_m.
  fold announced. cbn [String.length]. now rewrite He.
Qed.

(** ** [subprocess] *)

(** C9, as amended: on a well-formed argument, when the program cannot
    be started the exception carries the [missing] message if one was
    given and is not empty, and otherwise the default that names the
    tool twice; when the program returns a non-zero status the exception
    carries [error]; in every case exactly one program was started. *)
Theorem subprocess_failures (plat : Platform) (f : func) (a : arg)
    (error : string) (missing : option string) (st : State) (command tool : string) :
  command_and_tool a = Ok (command, tool) ->
  let printed := with_stdout (stdout (proc st) ++ [command]) (proc st) in
  let ran := mkState (self st) (with_launched (launched (proc st) ++ [(f, a)]) printed) in
  let default := "Couldn't find " +:+ tool +:+ ", is " +:+ tool +:+ " installed?" in
  (exec plat f a printed = NotStarted ->
   subprocess plat f a error missing st
   = (Raise (Exception match missing with
                       | Some m => if String.eqb m "" then default else m
                       | None => default
                       end), ran))
  /\ (exec plat f a printed = NonZeroExit ->
      subprocess plat f a error missing st = (Raise (Exception error), ran))
  /\ launched (proc (snd (subprocess plat f a error missing st)))
     = launched (proc st) ++ [(f, a)].
Proof.
  intros H printed ran default. repeat split.
  - intros E. rewrite (subprocess_run _ _ _ _ _ _ _ _ H). fold printed. rewrite E.
    destruct missing as [[|c m]|]; reflexivity.
  - intros E. rewrite (subprocess_run _ _ _ _ _ _ _ _ H). fold printed. now rewrite E.
  - now apply subprocess_launched with (command := command) (tool := tool).
Qed.

Lemma subprocess_failures_witness :
  subprocess Scenario.no_haxelib check_output haxelib_libpath "failed" None Scenario.start
  = (Raise (Exception "Couldn't find haxelib, is haxelib installed?"),
     mkState (self Scenario.start)
       (with_launched [(check_output, haxelib_libpath)]
          (with_stdout ["haxelib libpath hxcpp"] (proc Scenario.start))))
  /\ subprocess Scenario.failing_haxelib check_output haxelib_libpath "failed" None Scenario.start
     = (Raise (Exception "failed"),
        mkState (self Scenario.start)
          (with_launched [(check_output, haxelib_libpath)]
             (with_stdout ["haxelib libpath hxcpp"] (proc Scenario.start)))).
Proof.
  split.
  - apply (subprocess_failures Scenario.no_haxelib check_output haxelib_libpath
             "failed" None Scenario.start "haxelib libpath hxcpp" "haxelib" eq_refl).
    reflexivity.
  - apply (subprocess_failures Scenario.failing_haxelib check_output haxelib_libpath
             "failed" None Scenario.start "haxelib libpath hxcpp" "haxelib" eq_refl).
    reflexivity.
Defined.

(** C9, as stated, fails for an empty [missing] message: the program
    cannot be started, the caller supplied the message [""], and the
    exception carries the default message instead. *)
Lemma subprocess_empty_missing :
  exec Scenario.no_haxelib check_output haxelib_libpath
    (with_stdout ["haxelib libpath hxcpp"] (proc Scenario.start)) = NotStarted
  /\ fst (subprocess Scenario.no_haxelib check_output haxelib_libpath "failed" (Some "")
            Scenario.start)
     = Raise (Exception "Couldn't find haxelib, is haxelib installed?")
  /\ fst (subprocess Scenario.no_haxelib check_output haxelib_libpath "failed" (Some "")
            Scenario.start)
     <> Raise (Exception "").
Proof. repeat split. discriminate. Qed.

(** ** [build] *)

(** C7: [build] runs [msbuild /p:Configuration=Release] when the windows
    flag is set and [make] otherwise, once; a tool that cannot be started
    and a tool that fails each raise the message that names the tool. *)
Theorem build_command (plat : Platform) (st : State) :
  let tool := if windows (self st) then "msbuild" else "make" in
  let command :=
    if windows (self st) then "msbuild /p:Configuration=Release" else "make" in
  let printed := with_stdout (stdout (proc st) ++ [command]) (proc st) in
  let ran :=
    mkState (self st)
      (with_launched (launched (proc st) ++ [(check_call, ArgStr command)]) printed) in
  build plat st =
    match exec plat check_call (ArgStr command) printed with
    | Completed _ => (Ok tt, ran)
    | NotStarted => (Raise (Exception ("Couldn't find build tool: " +:+ tool)), ran)
    | NonZeroExit => (Raise (Exception ("Building with " +:+ tool +:+ " failed!")), ran)
    end.
Proof.
  unfold build. run_m.
  destruct (windows (self st)); cbn [fst snd].
  - rewrite (subprocess_run plat check_call (ArgStr "msbuild /p:Configuration=Release")
               _ _ st "msbuild /p:Configuration=Release" "msbuild" eq_refl).
    destruct (exec plat _ _ _); reflexivity.
  - rewrite (subprocess_run plat check_call (ArgStr "make") _ _ st "make" "make" eq_refl).
    destruct (exec plat _ _ _); reflexivity.
Qed.

(** ** Submodules *)

Lemma no_uninitialized_false (l : list string) :
  no_uninitialized l = false <->
  exists x, In x l /\ Str.startswith "-" (Str.strip x) = true.
Proof.
  induction l as [|y l IH]; cbn [no_uninitialized In].
  - split; [discriminate | intros [x [[] _]]].
  - destruct (Str.startswith "-" (Str.strip y)) eqn:E.
    + split; [|reflexivity]. intros _. exists y. auto.
    + rewrite IH. split.
      * intros [x [Hin Hx]]. exists x. auto.
      * intros [x [[->|Hin] Hx]]; [congruence|]. exists x. auto.
Qed.

Lemma no_uninitialized_true (l : list string) :
  no_uninitialized l = true <->
  forall x, In x l -> Str.startswith "-" (Str.strip x) = false.
Proof.
  induction l as [|y l IH]; cbn [no_uninitialized In].
  - split; [intros _ x [] | reflexivity].
  - destruct (Str.startswith "-" (Str.strip y)) eqn:E.
    + split; [discriminate|]. intros H. rewrite (H y) in E by now left. discriminate.
    + rewrite IH. split.
      * intros H x [->|Hin]; auto.
      * intros H x Hin. apply H. now right.
Qed.

Lemma git_submodules_initialized_run (plat : Platform) (st : State) (out : string) :
  let printed := with_stdout (stdout (proc st) ++ ["git submodule status"]) (proc st) in
  let ran := with_launched (launched (proc st) ++ [(check_output, git_status)]) printed in
  exec plat check_output git_status printed = Completed out ->
  git_submodules_initialized plat st
  = (Ok (no_uninitialized (Str.split "010" out)),
     mkState (self st) (with_stdout (stdout ran ++ [out]) ran)).
Proof.
  intros printed ran E. unfold git_submodules_initialized. run_m.
  rewrite (subprocess_run plat check_output git_status _ _ st
             "git submodule status" "git" eq_refl).
  fold printed. rewrite E. reflexivity.
Qed.

Lemma update_git_submodules_launched (plat : Platform) (st : State) (out : string) :
  let printed := with_stdout (stdout (proc st) ++ ["git submodule status"]) (proc st) in
  exec plat check_output git_status printed = Completed out ->
  launched (proc (snd (update_git_submodules plat st)))
  = launched (proc st) ++
    (check_output, git_status) ::
    (if no_uninitialized (Str.split "010" out) then [] else [(check_call, git_update)]).
Proof.
  intros printed E. unfold update_git_submodules.
  unfold bind at 1. rewrite (git_submodules_initialized_run _ _ _ E).
  destruct (no_uninitialized _); cbn [negb].
  - reflexivity.
  - unfold bind at 1.
    match goal with |- context [subprocess ?p ?f ?a ?e ?m ?s] =>
      pose proof (subprocess_launched p f a e m s
                    "git submodule update --init --recursive" "git" eq_refl) as L;
      destruct (subprocess p f a e m s) as [[v|e'] s'] end.
    all: cbn [snd] in *; unfold ret; cbn [snd]; rewrite L; simpl;
      now rewrite <- app_assoc.
Qed.

(** C4, as amended: with the status text read from git, if some line,
    once the white space around it is stripped, starts with [-] (in
    particular if some line starts with [-]), then
    [git_submodules_initialized] returns false and
    [update_git_submodules] runs the update command once, after the
    status command; if no stripped line starts with [-], it returns true
    and only the status command is run. *)
Theorem update_git_submodules_stripped (plat : Platform) (st : State) (out : string) :
  let printed := with_stdout (stdout (proc st) ++ ["git submodule status"]) (proc st) in
  exec plat check_output git_status printed = Completed out ->
  let lines := Str.split "010" out in
  ((exists l, In l lines /\ Str.startswith "-" (Str.strip l) = true) ->
   fst (git_submodules_initialized plat st) = Ok false
   /\ launched (proc (snd (update_git_submodules plat st)))
      = launched (proc st) ++ [(check_output, git_status); (check_call, git_update)])
  /\ ((exists l, In l lines /\ Str.startswith "-" l = true) ->
      fst (git_submodules_initialized plat st) = Ok false
      /\ launched (proc (snd (update_git_submodules plat st)))
         = launched (proc st) ++ [(check_output, git_status); (check_call, git_update)])
  /\ ((forall l, In l lines -> Str.startswith "-" (Str.strip l) = false) ->
      fst (git_submodules_initialized plat st) = Ok true
      /\ launched (proc (snd (update_git_submodules plat st)))
         = launched (proc st) ++ [(check_output, git_status)]).
Proof.
  intros printed E lines.
  assert (Hfalse : (exists l, In l lines /\ Str.startswith "-" (Str.strip l) = true) ->
            fst (git_submodules_initialized plat st) = Ok false
            /\ launched (proc (snd (update_git_submodules plat st)))
               = launched (proc st)
                 ++ [(check_output, git_status); (check_call, git_update)]).
  { intros H. apply no_uninitialized_false in H.
    rewrite (update_git_submodules_launched _ _ _ E),
            (git_submodules_initialized_run _ _ _ E).
    fold lines. rewrite H. split; reflexivity. }
  split; [exact Hfalse|]. split.
  - intros [l [Hin Hl]]. apply Hfalse. exists l. split; [assumption|].
    now apply startswith_dash_strip.
  - intros H. apply no_uninitialized_true in H.
    rewrite (update_git_submodules_launched _ _ _ E),
            (git_submodules_initialized_run _ _ _ E).
    fold lines. rewrite H. split; reflexivity.
Qed.

Lemma update_git_submodules_stripped_witness :
  (fst (git_submodules_initialized Scenario.uninitialized Scenario.start) = Ok false
   /\ launched (proc (snd (update_git_submodules Scenario.uninitialized Scenario.start)))
      = [(check_output, git_status); (check_call, git_update)])
  /\ (fst (git_submodules_initialized Scenario.linux Scenario.start) = Ok true
      /\ launched (proc (snd (update_git_submodules Scenario.linux Scenario.start)))
         = [(check_output, git_status)]).
Proof.
  split.
  - apply (update_git_submodules_stripped Scenario.uninitialized Scenario.start
             " 0a1b2c3 src/convphase (heads/main)
-4d5e6f7 src/hxcpp
" eq_refl).
    exists "-4d5e6f7 src/hxcpp". split; [simpl; auto | reflexivity].
  - apply (update_git_submodules_stripped Scenario.linux Scenario.start
             " 0a1b2c3 src/convphase (heads/main)" eq_refl).
    intros l [<-|[]]. reflexivity.
Defined.

(** C4, as stated, fails on a status text whose only line is indented:
    no line starts with [-], and the update command is run all the
    same. *)
Lemma update_without_leading_dash :
  exec Scenario.indented_status check_output git_status
    (with_stdout ["git submodule status"] (proc Scenario.start))
  = Completed " -0a1b2c3 src/convphase"
  /\ (forall l, In l (Str.split "010" " -0a1b2c3 src/convphase") ->
      Str.startswith "-" l = false)
  /\ launched (proc (snd (update_git_submodules Scenario.indented_status Scenario.start)))
     = [(check_output, git_status); (check_call, git_update)].
Proof.
  split; [reflexivity|]. split; [|reflexivity].
  intros l [<-|[]]. reflexivity.
Qed.

(** ** [find_hxcpp_includes] *)

(** a path that can be listed exists *)
Lemma iterdir_exists (fs : Files) (wd : string) (p : Path.t) (l : list Path.t) :
  Fs.iterdir fs wd p = inr l -> Fs.exists_ fs wd p = true.
Proof.
  unfold Fs.iterdir, Fs.exists_.
  destruct (Fs.locate fs wd p) as [e|k]; [discriminate|].
  destruct (Fs.kind fs k) as [[]|]; (discriminate || reflexivity).
Qed.

(** [find_hxcpp_includes] once the locator has printed [out] *)
Lemma find_hxcpp_includes_run (plat : Platform) (st : State) (out : string) :
  let printed := with_stdout (stdout (proc st) ++ ["haxelib libpath hxcpp"]) (proc st) in
  exec plat check_output haxelib_libpath printed = Completed out ->
  let ran := with_launched (launched (proc st) ++ [(check_output, haxelib_libpath)]) printed in
  let shown := with_stdout (stdout ran ++ [out]) ran in
  let path := Path.joinpath (Path.parse (Str.strip out)) (Path.parse "include") in
  let fs := files (proc st) in
  let wd := cwd (proc st) in
  find_hxcpp_includes plat st
  = (if negb (Fs.exists_ fs wd path)
     then raise (Exception ("Bad hxcpp include: " +:+ Path.str path))
     else match Fs.iterdir fs wd path with
          | inl e => raise (OSError e)
          | inr children =>
              if negb (any_path children)
              then raise (Exception ("Bad hxcpp include: " +:+ Path.str path))
              else modify_self (fun c =>
                     with_hxcpp_includes (hxcpp_includes c ++ [path]) c)
          end) (mkState (self st) shown).
Proof.
  intros printed E ran shown path fs wd.
  unfold find_hxcpp_includes. unfold bind at 1.
  rewrite (subprocess_run plat check_output haxelib_libpath _ _ st
             "haxelib libpath hxcpp" "haxelib" eq_refl).
  fold printed. rewrite E. reflexivity.
Qed.

(** C8, as amended: with the text read from the locator, the include
    directory is [<stripped text>/include], which is the relative
    directory [include] when the text is empty.  If that path does not
    exist or is a directory without entries, [find_hxcpp_includes] raises
    [Bad hxcpp include: <path>]; if it is a directory with an entry, it
    appends exactly that path to [hxcpp_includes]. *)
Theorem find_hxcpp_includes_checks (plat : Platform) (st : State) (out : string) :
  let printed := with_stdout (stdout (proc st) ++ ["haxelib libpath hxcpp"]) (proc st) in
  exec plat check_output haxelib_libpath printed = Completed out ->
  let ran := with_launched (launched (proc st) ++ [(check_output, haxelib_libpath)]) printed in
  let shown := with_stdout (stdout ran ++ [out]) ran in
  let path := Path.joinpath (Path.parse (Str.strip out)) (Path.parse "include") in
  let fs := files (proc st) in
  let wd := cwd (proc st) in
  (Fs.exists_ fs wd path = false \/ Fs.iterdir fs wd path = inr [] ->
   find_hxcpp_includes plat st
   = (Raise (Exception ("Bad hxcpp include: " +:+ Path.str path)), mkState (self st) shown))
  /\ (forall child children,
        Fs.iterdir fs wd path = inr (child :: children) ->
        find_hxcpp_includes plat st
        = (Ok tt,
           mkState (with_hxcpp_includes (hxcpp_includes (self st) ++ [path]) (self st)) shown))
  /\ (Str.strip out = "" -> path = Path.mk "" ["include"]).
Proof.
  intros printed E ran shown path fs wd.
  pose proof (find_hxcpp_includes_run plat st out E) as R. cbv zeta in R.
  fold printed ran shown path fs wd in R.
  rewrite R. split; [|split].
  - intros [H|H].
    + now rewrite H.
    + rewrite (iterdir_exists _ _ _ _ H), H. reflexivity.
  - intros child children H.
    rewrite (iterdir_exists _ _ _ _ H), H. reflexivity.
  - intros H. unfold path. now rewrite H.
Qed.

(** when the include path exists and cannot be listed (it is a file),
    the error of [iterdir] leaves [find_hxcpp_includes] as it is *)
Lemma find_hxcpp_includes_not_a_directory (plat : Platform) (st : State)
    (out : string) (e : oserror) :
  let printed := with_stdout (stdout (proc st) ++ ["haxelib libpath hxcpp"]) (proc st) in
  exec plat check_output haxelib_libpath printed = Completed out ->
  let path := Path.joinpath (Path.parse (Str.strip out)) (Path.parse "include") in
  Fs.exists_ (files (proc st)) (cwd (proc st)) path = true ->
  Fs.iterdir (files (proc st)) (cwd (proc st)) path = inl e ->
  fst (find_hxcpp_includes plat st) = Raise (OSError e).
Proof.
  intros printed E path Hex Hit.
  rewrite (find_hxcpp_includes_run plat st out E). fold path.
  now rewrite Hex, Hit.
Qed.

Lemma find_hxcpp_includes_checks_witness :
  find_hxcpp_includes Scenario.linux (mkState Scenario.fresh (Scenario.process Scenario.tree))
  = (Ok tt,
     mkState (with_hxcpp_includes [Path.mk "/" ["opt"; "hxcpp"; "include"]] Scenario.fresh)
       (with_stdout ["haxelib libpath hxcpp"; "/opt/hxcpp/
"]
          (with_launched [(check_output, haxelib_libpath)]
             (Scenario.process Scenario.tree))))
  /\ find_hxcpp_includes Scenario.silent_haxelib
       (mkState Scenario.fresh (Scenario.process Scenario.tree))
     = (Raise (Exception "Bad hxcpp include: include"),
        mkState Scenario.fresh
          (with_stdout ["haxelib libpath hxcpp"; ""]
             (with_launched [(check_output, haxelib_libpath)]
                (Scenario.process Scenario.tree)))).
Proof.
  split.
  - apply (find_hxcpp_includes_checks Scenario.linux
             (mkState Scenario.fresh (Scenario.process Scenario.tree)) "/opt/hxcpp/
" eq_refl)
      with (child := Path.mk "/" ["opt"; "hxcpp"; "include"; "hxcpp.h"]) (children := []).
    vm_compute. reflexivity.
  - apply (find_hxcpp_includes_checks Scenario.silent_haxelib
             (mkState Scenario.fresh (Scenario.process Scenario.tree)) "" eq_refl).
    left. vm_compute. reflexivity.
Defined.

(** C8, as stated, fails when the locator prints nothing and the working
    directory has a populated [include]: the text is empty, no exception
    is raised, and the relative path [include] is appended. *)
Lemma find_hxcpp_includes_empty_libpath :
  exec Scenario.silent_haxelib check_output haxelib_libpath
    (with_stdout ["haxelib libpath hxcpp"] (proc Scenario.start_with_include))
  = Completed ""
  /\ fst (find_hxcpp_includes Scenario.silent_haxelib Scenario.start_with_include) = Ok tt
  /\ hxcpp_includes
       (self (snd (find_hxcpp_includes Scenario.silent_haxelib Scenario.start_with_include)))
     = [Path.mk "" ["include"]].
Proof. repeat split; vm_compute; reflexivity. Qed.

(** ** Paths *)

Section PathFacts.

Lemma splitroot_wf (s : string) : wf_root (Path.splitroot s).
Proof.
  unfold Path.splitroot, wf_root.
  destruct (Str.startswith "/" s); [|auto].
  destruct (Str.startswith "//" s && negb (Str.startswith "///" s)); auto.
Qed.

Lemma parse_wf (s : string) : wf (Path.parse s).
Proof.
  split; [apply splitroot_wf|]. cbn [Path.parts Path.parse].
  apply List.Forall_forall. intros x Hx.
  apply List.filter_In in Hx as [Hin Hc].
  unfold Path.simple. rewrite Hc. cbn [andb].
  pose proof (split_no_sep "/" s) as H.
  rewrite List.Forall_forall in H. now rewrite (H x Hin).
Qed.

Lemma joinpath_wf (p q : Path.t) : wf p -> wf q -> wf (Path.joinpath p q).
Proof.
  intros [Hr Hp] [Hr' Hq]. unfold Path.joinpath.
  destruct (Path.is_absolute q); [now split|].
  split; [exact Hr|]. cbn [Path.parts]. now apply List.Forall_app.
Qed.

Lemma empty_wf : wf Path.empty.
Proof. split; [now left | constructor]. Qed.

Lemma of_segments_wf (l : list string) : wf (Path.of_segments l).
Proof.
  unfold Path.of_segments. generalize empty_wf. generalize Path.empty.
  induction l as [|s l IH]; intros p Hp; [exact Hp|].
  cbn [fold_left]. apply IH. apply joinpath_wf; [exact Hp | apply parse_wf].
Qed.

Lemma absolute_wf (wd : string) (p : Path.t) : wf p -> wf (Path.absolute wd p).
Proof.
  intros Hp. unfold Path.absolute.
  destruct (Path.is_absolute p); [exact Hp|].
  apply joinpath_wf; [apply parse_wf | exact Hp].
Qed.

(** a single component starts with a character that is not a slash *)
Lemma simple_head (x : string) :
  Path.simple x = true ->
  exists c x', x = String c x' /\ Ascii.eqb c "/" = false /\ Str.contains "/" x = false.
Proof.
  unfold Path.simple, Path.is_component.
  destruct x as [|c x']; [discriminate|].
  intros H. apply andb_true_iff in H as [_ H]. apply negb_true_iff in H.
  exists c, x'. split; [reflexivity|]. split; [|exact H].
  cbn [Str.contains] in H. now apply orb_false_iff in H as [H _].
Qed.

Lemma simple_is_component (x : string) :
  Path.simple x = true -> Path.is_component x = true.
Proof. unfold Path.simple. intros H. now apply andb_true_iff in H as [H _]. Qed.

Lemma filter_components (l : list string) :
  List.Forall (fun x => Path.simple x = true) l ->
  List.filter Path.is_component l = l.
Proof.
  induction 1 as [|x l Hx Hl IH]; [reflexivity|].
  cbn [List.filter]. now rewrite (simple_is_component _ Hx), IH.
Qed.

(** a single component parses to itself *)
Lemma parse_simple (x : string) :
  Path.simple x = true -> Path.parse x = Path.mk "" [x].
Proof.
  intros H. destruct (simple_head x H) as [c [x' [-> [Hc Hs]]]].
  unfold Path.parse, Path.splitroot.
  rewrite (split_no_sep_id _ _ Hs).
  cbn [List.filter]. rewrite (simple_is_component _ H).
  cbn [Str.startswith]. rewrite Ascii.eqb_sym, Hc. reflexivity.
Qed.

(** the components of a well-formed path survive printing and parsing *)
Lemma filter_split_join (l : list string) :
  List.Forall (fun x => Path.simple x = true) l ->
  List.filter Path.is_component (Str.split "/" (Str.join "/" l)) = l.
Proof.
  intros H. destruct l as [|x l]; [reflexivity|].
  rewrite split_join.
  - now apply filter_components.
  - discriminate.
  - apply List.Forall_forall. intros y Hy.
    rewrite List.Forall_forall in H.
    now destruct (simple_head y (H y Hy)) as [? [? [_ [_ ?]]]].
Qed.

(** the text of components does not start with a slash *)
Lemma join_no_leading_slash (l : list string) :
  List.Forall (fun x => Path.simple x = true) l ->
  Str.startswith "/" (Str.join "/" l) = false.
Proof.
  intros H. destruct l as [|x l]; [reflexivity|].
  inversion H as [|? ? Hx Hl]; subst.
  destruct (simple_head x Hx) as [c [x' [-> [Hc _]]]].
  destruct l as [|y l].
  - cbn [Str.join String.concat Str.startswith]. now rewrite Ascii.eqb_sym, Hc.
  - rewrite join_cons, append_cons. cbn [Str.startswith].
    now rewrite Ascii.eqb_sym, Hc.
Qed.

(** printing a well-formed path and parsing the text gives the path *)
Lemma parse_str (p : Path.t) : wf p -> Path.parse (Path.str p) = p.
Proof.
  destruct p as [r ps]. intros [Hr Hps]. cbn [Path.root Path.parts] in *.
  pose proof (filter_split_join ps Hps) as Hf.
  pose proof (join_no_leading_slash ps Hps) as Hj.
  unfold Path.parse, Path.str, Path.splitroot. cbn [Path.root Path.parts].
  destruct Hr as [->|[->| ->]].
  - destruct ps as [|x l]; [reflexivity|].
    rewrite append_nil_l, Hf, Hj. reflexivity.
  - rewrite !append_cons, append_nil_l.
    cbn [Str.startswith Str.split]. rewrite Ascii.eqb_refl.
    cbn [List.filter Path.is_component String.eqb negb andb].
    rewrite Hf. unfold Str.startswith in Hj |- *. fold Str.startswith in Hj |- *.
    destruct (Str.join "/" ps) as [|c s]; [reflexivity|].
    rewrite Hj. reflexivity.
  - rewrite !append_cons, append_nil_l.
    cbn [Str.startswith Str.split]. rewrite !Ascii.eqb_refl.
    cbn [List.filter Path.is_component String.eqb negb andb].
    rewrite Hf. unfold Str.startswith in Hj |- *. fold Str.startswith in Hj |- *.
    destruct (Str.join "/" ps) as [|c s]; [reflexivity|].
    rewrite Hj. reflexivity.
Qed.

End PathFacts.

(** ** [get_target_path] *)

Lemma mkdir_parents_made (fs : Files) (wd : string) (p : Path.t) :
  Fs.can_make fs wd p = true -> Fs.mkdir_parents fs wd p = inr (Fs.made fs wd p).
Proof.
  unfold Fs.can_make, Fs.made.
  destruct (Fs.mkdir_parents fs wd p); [discriminate | reflexivity].
Qed.

Lemma last_split (sep : ascii) (s : string) :
  last (Str.split sep s) = Some (List.last (Str.split sep s) "").
Proof.
  pose proof (split_not_nil sep s) as H.
  induction (Str.split sep s) as [|x l IH]; [congruence|].
  destruct l as [|y l]; [reflexivity|].
  cbn [last List.last] in *. apply IH. discriminate.
Qed.

(** [get_target_path], step by step *)
Lemma get_target_path_unfold (plat : Platform) (st : State) :
  let segments := Str.split "." (name (self st)) in
  get_target_path plat st =
    match get_config_var plat "EXT_SUFFIX" with
    | None => (Raise TypeError, st)
    | Some suffix =>
        match target_package_path plat (self st) (removelast segments) with
        | Raise e => (Raise e, st)
        | Ok pkg =>
            match Fs.mkdir_parents (files (proc st)) (cwd (proc st)) pkg with
            | inl e => (Raise (OSError e), st)
            | inr fs' =>
                (Ok (Path.str (Path.absolute (cwd (proc st))
                       (Path.joinpath pkg (Path.parse (List.last segments "" +:+ suffix))))),
                 mkState (self st) (with_files fs' (proc st)))
            end
        end
    end.
Proof.
  intros segments. unfold get_target_path. run_m. fold segments.
  unfold segments at 1. rewrite last_split. fold segments.
  unfold get_target_filename, mkdir. run_m.
  destruct (get_config_var plat "EXT_SUFFIX") as [suffix|]; [|reflexivity].
  cbn [fst snd self proc].
  destruct (target_package_path plat (self st) (removelast segments)) as [pkg|e];
    [|reflexivity].
  destruct (Fs.mkdir_parents (files (proc st)) (cwd (proc st)) pkg) as [e|fs'];
    reflexivity.
Qed.

(** [get_target_path] when the package directory can be made *)
Lemma get_target_path_made (plat : Platform) (st : State) (suffix : string) (pkg : Path.t) :
  let segments := Str.split "." (name (self st)) in
  get_config_var plat "EXT_SUFFIX" = Some suffix ->
  target_package_path plat (self st) (removelast segments) = Ok pkg ->
  Fs.can_make (files (proc st)) (cwd (proc st)) pkg = true ->
  get_target_path plat st
  = (Ok (Path.str (Path.absolute (cwd (proc st))
                     (Path.joinpath pkg (Path.parse (List.last segments "" +:+ suffix))))),
     mkState (self st)
       (with_files (Fs.made (files (proc st)) (cwd (proc st)) pkg) (proc st))).
Proof.
  intros segments Hs Hp Hm. rewrite get_target_path_unfold. fold segments.
  now rewrite Hs, Hp, (mkdir_parents_made _ _ _ Hm).
Qed.

Lemma target_package_path_wf (plat : Platform) (c : Command) (init : list string)
    (pkg : Path.t) :
  target_package_path plat c init = Ok pkg -> wf pkg.
Proof.
  unfold target_package_path.
  destruct (inplace c =? 0)%Z.
  - destruct (build_lib c) as [b|]; [|discriminate].
    intros [= <-]. apply joinpath_wf; [apply parse_wf | apply of_segments_wf].
  - intros [= <-]. apply parse_wf.
Qed.

(** the name of a path made absolute after a single component was
    joined to it is that component *)
Lemma name_absolute_joinpath (wd : string) (p : Path.t) (x : string) :
  Path.simple x = true ->
  Path.name (Path.absolute wd (Path.joinpath p (Path.parse x))) = x.
Proof.
  intros H. rewrite (parse_simple _ H).
  assert (J : Path.joinpath p (Path.mk "" [x]) = Path.mk (Path.root p) (Path.parts p ++ [x]))
    by reflexivity.
  rewrite J. unfold Path.absolute, Path.name.
  destruct (Path.is_absolute _) eqn:E.
  - apply List.last_last.
  - unfold Path.joinpath. rewrite E. cbn [Path.parts].
    rewrite app_assoc. apply List.last_last.
Qed.

(** C1: with the extension suffix of the platform, [get_target_filename]
    returns its argument followed by the suffix; and in both build modes
    (into [build_lib], or in place into the directory of the package)
    [get_target_path], once the package directory is made, returns the
    absolute path of the package directory joined with the last dotted
    segment of the target name followed by the suffix, so that the file
    name of the returned path is that last segment followed by the
    suffix. *)
Theorem target_filename_leaf_suffix (plat : Platform) (st : State)
    (suffix b : string) (pkg : Path.t) (fs' : Files) :
  let segments := Str.split "." (name (self st)) in
  let init := removelast segments in
  let leaf := List.last segments "" in
  get_config_var plat "EXT_SUFFIX" = Some suffix ->
  (inplace (self st) = 0%Z /\ build_lib (self st) = Some b
   /\ pkg = Path.joinpath (Path.parse b) (Path.of_segments init))
  \/ (inplace (self st) <> 0%Z
      /\ pkg = Path.parse (get_package_dir plat (Str.join "." init))) ->
  Fs.mkdir_parents (files (proc st)) (cwd (proc st)) pkg = inr fs' ->
  (forall n st0, get_target_filename plat n st0 = (Ok (n +:+ suffix), st0))
  /\ exists target,
       get_target_path plat st = (Ok target, mkState (self st) (with_files fs' (proc st)))
       /\ target = Path.str (Path.absolute (cwd (proc st))
                               (Path.joinpath pkg (Path.parse (leaf +:+ suffix))))
       /\ (Path.simple (leaf +:+ suffix) = true ->
           Path.name (Path.parse target) = leaf +:+ suffix).
Proof.
  intros segments init leaf Hs Hmode Hm.
  assert (Hp : target_package_path plat (self st) init = Ok pkg).
  { unfold target_package_path.
    destruct Hmode as [[Hi [Hb ->]]|[Hi ->]].
    - now rewrite Hi, Hb.
    - apply Z.eqb_neq in Hi. now rewrite Hi. }
  split.
  - intros n st0. unfold get_target_filename. now rewrite Hs.
  - eexists. split; [|split; [reflexivity|]].
    + rewrite get_target_path_unfold. fold segments. fold init.
      rewrite Hs, Hp, Hm. reflexivity.
    + intros Hsimple. rewrite parse_str.
      * now apply name_absolute_joinpath.
      * apply absolute_wf, joinpath_wf; [|apply parse_wf].
        now apply target_package_path_wf in Hp.
Qed.

Lemma target_filename_leaf_suffix_witness :
  (fst (get_target_path Scenario.linux Scenario.start)
   = Ok "/home/u/ConvPhase/build/lib.linux-x86_64-3.10/itaxotools/convphase/convphase.cpython-310-x86_64-linux-gnu.so"
   /\ Path.name (Path.parse "/home/u/ConvPhase/build/lib.linux-x86_64-3.10/itaxotools/convphase/convphase.cpython-310-x86_64-linux-gnu.so")
      = "convphase" +:+ ".cpython-310-x86_64-linux-gnu.so")
  /\ (fst (get_target_path Scenario.linux Scenario.start_inplace)
      = Ok "/home/u/ConvPhase/src/itaxotools/convphase/convphase.cpython-310-x86_64-linux-gnu.so"
      /\ Path.name (Path.parse "/home/u/ConvPhase/src/itaxotools/convphase/convphase.cpython-310-x86_64-linux-gnu.so")
         = "convphase" +:+ ".cpython-310-x86_64-linux-gnu.so").
Proof.
  split.
  - destruct (target_filename_leaf_suffix Scenario.linux Scenario.start
                ".cpython-310-x86_64-linux-gnu.so" "build/lib.linux-x86_64-3.10"
                (Path.parse "build/lib.linux-x86_64-3.10/itaxotools/convphase")
                (Scenario.after_mkdir Scenario.start
                   (Path.parse "build/lib.linux-x86_64-3.10/itaxotools/convphase")))
      as [_ [target [Hrun [Htarget Hname]]]];
      [ vm_compute; reflexivity
      | left; repeat split; vm_compute; reflexivity
      | apply mkdir_parents_made; vm_compute; reflexivity |].
    rewrite Hrun. cbn [fst].
    assert (E : target = "/home/u/ConvPhase/build/lib.linux-x86_64-3.10/itaxotools/convphase/convphase.cpython-310-x86_64-linux-gnu.so")
      by (rewrite Htarget; vm_compute; reflexivity).
    rewrite <- E. split; [reflexivity|]. apply Hname. vm_compute. reflexivity.
  - destruct (target_filename_leaf_suffix Scenario.linux Scenario.start_inplace
                ".cpython-310-x86_64-linux-gnu.so" ""
                (Path.parse "src/itaxotools/convphase")
                (Scenario.after_mkdir Scenario.start_inplace
                   (Path.parse "src/itaxotools/convphase")))
      as [_ [target [Hrun [Htarget Hname]]]];
      [ vm_compute; reflexivity
      | right; split; [discriminate | vm_compute; reflexivity]
      | apply mkdir_parents_made; vm_compute; reflexivity |].
    rewrite Hrun. cbn [fst].
    assert (E : target = "/home/u/ConvPhase/src/itaxotools/convphase/convphase.cpython-310-x86_64-linux-gnu.so")
      by (rewrite Htarget; vm_compute; reflexivity).
    rewrite <- E. split; [reflexivity|]. apply Hname. vm_compute. reflexivity.
Defined.

(** segments that are single components become the components of the
    module path *)
Lemma of_segments_simple (l : list string) :
  List.Forall (fun x => Path.simple x = true) l ->
  Path.of_segments l = Path.mk "" l.
Proof.
  unfold Path.of_segments, Path.empty.
  change l with ([] ++ l) at 3. generalize (@nil string) as acc.
  induction l as [|x l IH]; intros acc H.
  - now rewrite app_nil_r.
  - inversion H as [|? ? Hx Hl]; subst.
    cbn [fold_left]. rewrite (parse_simple _ Hx).
    change (Path.joinpath (Path.mk "" acc) (Path.mk "" [x])) with (Path.mk "" (acc ++ [x])).
    rewrite (IH _ Hl). now rewrite <- app_assoc.
Qed.

(** joining relative paths commutes with making the left one absolute *)
Lemma absolute_joinpath_relative (wd : string) (p q : Path.t) :
  Path.is_absolute q = false ->
  Path.absolute wd (Path.joinpath p q)
  = Path.mk (Path.root (Path.absolute wd p))
            (Path.parts (Path.absolute wd p) ++ Path.parts q).
Proof.
  intros Hq. unfold Path.joinpath at 1. rewrite Hq.
  unfold Path.absolute.
  change (Path.is_absolute (Path.mk (Path.root p) (Path.parts p ++ Path.parts q)))
    with (Path.is_absolute p).
  destruct (Path.is_absolute p) eqn:E; [reflexivity|].
  unfold Path.joinpath. rewrite E.
  change (Path.is_absolute (Path.mk (Path.root p) (Path.parts p ++ Path.parts q)))
    with (Path.is_absolute p).
  rewrite E. cbn [Path.root Path.parts]. now rewrite app_assoc.
Qed.

(** C2: with the in-place flag set, two runs of [get_target_path] that
    differ only in [build_lib] return the same result and leave the same
    process, and the path is the one of the package-directory resolver
    joined with the file name; with the flag clear, the result does not
    depend on the resolver, and the path is [build_lib], made absolute,
    followed by the package segments and the file name. *)
Theorem target_path_modes (plat : Platform) (c : Command) (p : Process) :
  let segments := Str.split "." (name c) in
  let init := removelast segments in
  let leaf := List.last segments "" in
  (inplace c <> 0%Z ->
   (forall b1 b2,
      fst (get_target_path plat (mkState (with_build_lib b1 c) p))
      = fst (get_target_path plat (mkState (with_build_lib b2 c) p))
      /\ proc (snd (get_target_path plat (mkState (with_build_lib b1 c) p)))
         = proc (snd (get_target_path plat (mkState (with_build_lib b2 c) p))))
   /\ (forall suffix fs',
         get_config_var plat "EXT_SUFFIX" = Some suffix ->
         let package_dir := Path.parse (get_package_dir plat (Str.join "." init)) in
         Fs.mkdir_parents (files p) (cwd p) package_dir = inr fs' ->
         fst (get_target_path plat (mkState c p))
         = Ok (Path.str (Path.absolute (cwd p)
                           (Path.joinpath package_dir (Path.parse (leaf +:+ suffix)))))))
  /\ (inplace c = 0%Z ->
      (forall g,
         get_target_path (with_get_package_dir g plat) (mkState c p)
         = get_target_path plat (mkState c p))
      /\ (forall b suffix fs',
            build_lib c = Some b ->
            get_config_var plat "EXT_SUFFIX" = Some suffix ->
            let package_path := Path.joinpath (Path.parse b) (Path.of_segments init) in
            Fs.mkdir_parents (files p) (cwd p) package_path = inr fs' ->
            let target :=
              Path.absolute (cwd p)
                (Path.joinpath package_path (Path.parse (leaf +:+ suffix))) in
            fst (get_target_path plat (mkState c p)) = Ok (Path.str target)
            /\ Path.parse (Path.str target) = target
            /\ (forallb Path.simple init = true ->
                Path.simple (leaf +:+ suffix) = true ->
                target
                = Path.mk (Path.root (Path.absolute (cwd p) (Path.parse b)))
                    (Path.parts (Path.absolute (cwd p) (Path.parse b))
                       ++ init ++ [leaf +:+ suffix])))).
Proof.
  intros segments init leaf. split.
  - intros Hin. apply Z.eqb_neq in Hin.
    assert (T : forall b, target_package_path plat (with_build_lib b c) init
                          = Ok (Path.parse (get_package_dir plat (Str.join "." init)))).
    { intros b. unfold target_package_path. cbn [inplace with_build_lib].
      now rewrite Hin. }
    split.
    + intros b1 b2. rewrite !get_target_path_unfold.
      cbn [self proc name with_build_lib]. fold segments. fold init.
      change (mkCommand (name c) (hxcpp_includes c) (python_includes c) (python_libs c)
                b1 (plat_name c) (windows c) (inplace c)) with (with_build_lib b1 c).
      change (mkCommand (name c) (hxcpp_includes c) (python_includes c) (python_libs c)
                b2 (plat_name c) (windows c) (inplace c)) with (with_build_lib b2 c).
      rewrite !T.
      destruct (get_config_var plat "EXT_SUFFIX"); [|split; reflexivity].
      destruct (Fs.mkdir_parents _ _ _); split; reflexivity.
    + intros suffix fs' Hs package_dir Hm.
      rewrite get_target_path_unfold. cbn [self proc]. fold segments. fold init.
      assert (T' : target_package_path plat c init = Ok package_dir).
      { unfold target_package_path. now rewrite Hin. }
      rewrite Hs, T', Hm. reflexivity.
  - intros Hin. apply Z.eqb_eq in Hin. split.
    + intros g. rewrite !get_target_path_unfold. cbn [self proc].
      change (get_config_var (with_get_package_dir g plat)) with (get_config_var plat).
      assert (T : target_package_path (with_get_package_dir g plat) c (removelast segments)
                  = target_package_path plat c (removelast segments)).
      { unfold target_package_path. now rewrite Hin. }
      fold segments. now rewrite T.
    + intros b suffix fs' Hb Hs package_path Hm target.
      assert (T : target_package_path plat c init = Ok package_path).
      { unfold target_package_path. now rewrite Hin, Hb. }
      split; [|split].
      * rewrite get_target_path_unfold. cbn [self proc]. fold segments. fold init.
        rewrite Hs, T, Hm. reflexivity.
      * apply parse_str, absolute_wf, joinpath_wf; [|apply parse_wf].
        now apply target_package_path_wf in T.
      * intros Hinit Hleaf. unfold target, package_path.
        rewrite forallb_forall in Hinit. apply List.Forall_forall in Hinit.
        rewrite (parse_simple _ Hleaf), (of_segments_simple _ Hinit).
        rewrite !absolute_joinpath_relative by reflexivity.
        cbn [Path.root Path.parts]. now rewrite <- app_assoc.
Qed.

Lemma target_path_modes_witness :
  (fst (get_target_path Scenario.linux
          (mkState (with_build_lib (Some "build/a") (with_inplace 1 Scenario.finalized))
                   (Scenario.process Scenario.tree)))
   = fst (get_target_path Scenario.linux
            (mkState (with_build_lib (Some "/tmp/b") (with_inplace 1 Scenario.finalized))
                     (Scenario.process Scenario.tree)))
   /\ fst (get_target_path Scenario.linux Scenario.start_inplace)
      = Ok "/home/u/ConvPhase/src/itaxotools/convphase/convphase.cpython-310-x86_64-linux-gnu.so")
  /\ (get_target_path (with_get_package_dir (fun _ => "elsewhere") Scenario.linux) Scenario.start
      = get_target_path Scenario.linux Scenario.start
      /\ exists target,
           fst (get_target_path Scenario.linux Scenario.start) = Ok (Path.str target)
           /\ Path.parse (Path.str target) = target
           /\ target
              = Path.mk "/" (["home"; "u"; "ConvPhase"; "build"; "lib.linux-x86_64-3.10"]
                               ++ ["itaxotools"; "convphase"]
                               ++ ["convphase.cpython-310-x86_64-linux-gnu.so"])).
Proof.
  split.
  - pose proof (target_path_modes Scenario.linux (with_inplace 1 Scenario.finalized)
                  (Scenario.process Scenario.tree)) as H.
    cbv zeta in H. destruct H as [H _].
    destruct H as [Hsame Hdir]; [discriminate|]. split.
    + apply Hsame.
    + unfold Scenario.start_inplace.
      rewrite (Hdir ".cpython-310-x86_64-linux-gnu.so"
                 (Scenario.after_mkdir Scenario.start_inplace (Path.parse "src/itaxotools/convphase")));
        [vm_compute; reflexivity | vm_compute; reflexivity
        | apply mkdir_parents_made; vm_compute; reflexivity].
  - pose proof (target_path_modes Scenario.linux Scenario.finalized
                  (Scenario.process Scenario.tree)) as H.
    cbv zeta in H. destruct H as [_ H].
    destruct H as [Hsame Hpath]; [reflexivity|].
    unfold Scenario.start. split; [apply Hsame|].
    destruct (Hpath "build/lib.linux-x86_64-3.10" ".cpython-310-x86_64-linux-gnu.so"
                (Scenario.after_mkdir Scenario.start
                   (Path.parse "build/lib.linux-x86_64-3.10/itaxotools/convphase")))
      as [Hrun [Hparse Hparts]];
      [reflexivity | vm_compute; reflexivity
      | apply mkdir_parents_made; vm_compute; reflexivity |].
    eexists. split; [exact Hrun|]. split; [exact Hparse|].
    etransitivity; [apply Hparts; vm_compute; reflexivity|].
    vm_compute. reflexivity.
Defined.

(** ** [premake] *)

Lemma premake_action_gmake2 (plat : Platform) (st : State) :
  windows (self st) = false -> premake_action plat st = (Ok "gmake2", st).
Proof. intros Hw. unfold premake_action. run_m. now rewrite Hw. Qed.

(** once the action is chosen and the target path computed, [premake]
    runs the generator once, on the command built from them *)
Lemma premake_launched (plat : Platform) (st st1 : State) (action target : string) :
  premake_action plat st = (Ok action, st) ->
  get_target_path plat st = (Ok target, st1) ->
  launched (proc (snd (premake plat st)))
  = launched (proc st1)
    ++ [(check_call,
         ArgStr (premake_command action (self st)
                 +:+ " --target=" +:+ dquote +:+ target +:+ dquote))].
Proof.
  intros Ha Ht. unfold premake.
  unfold bind at 1. rewrite Ha.
  unfold bind at 1. unfold get at 1. cbn iota beta.
  unfold bind at 1. rewrite Ht.
  unfold bind at 1.
  match goal with |- context [subprocess ?p ?f (ArgStr ?a) ?e ?m ?s] =>
    destruct (command_and_tool_str a) as [tool Hc];
    pose proof (subprocess_launched p f (ArgStr a) e m s a tool Hc) as L;
    destruct (subprocess p f (ArgStr a) e m s) as [[v|e'] s'] end.
  all: cbn [snd] in *; unfold ret; cbn [snd]; exact L.
Qed.

Lemma premake_command_includes (action : string) (c : Command) :
  python_includes c ++ hxcpp_includes c <> [] ->
  exists libs,
    premake_command action c
    = "premake5 " +:+ action +:+ " --includedirs=" +:+ dquote
      +:+ premake_includes c +:+ dquote +:+ libs.
Proof.
  intros H. unfold premake_command.
  destruct (python_includes c ++ hxcpp_includes c) as [|x l] eqn:E; [congruence|].
  destruct (python_libs c) as [|y l'].
  - exists "". now rewrite !append_assoc, append_nil_r.
  - eexists. rewrite !append_assoc. reflexivity.
Qed.

(** C5: the include string of [premake] is the texts of the Python
    include paths followed by those of the hxcpp include paths, with a
    [;] between neighbours only: splitting it at [;] gives exactly these
    texts in this order (when none of them contains a [;]).  It is the
    value of [--includedirs] in the command the generator is run on. *)
Theorem premake_includes_order (plat : Platform) (c : Command) :
  let host := map Path.str (python_includes c) in
  let native := map Path.str (hxcpp_includes c) in
  premake_includes c = Str.join ";" (host ++ native)
  /\ (host <> [] -> native <> [] ->
      premake_includes c = Str.join ";" host +:+ ";" +:+ Str.join ";" native)
  /\ (host ++ native <> [] ->
      forallb (fun x => negb (Str.contains ";" x)) (host ++ native) = true ->
      Str.split ";" (premake_includes c) = host ++ native)
  /\ (forall action,
        host ++ native <> [] ->
        exists libs,
          premake_command action c
          = "premake5 " +:+ action +:+ " --includedirs=" +:+ dquote
            +:+ premake_includes c +:+ dquote +:+ libs)
  /\ (forall st st1 action target,
        self st = c ->
        premake_action plat st = (Ok action, st) ->
        get_target_path plat st = (Ok target, st1) ->
        launched (proc (snd (premake plat st)))
        = launched (proc st1)
          ++ [(check_call,
               ArgStr (premake_command action c
                       +:+ " --target=" +:+ dquote +:+ target +:+ dquote))]).
Proof.
  intros host native.
  assert (E : premake_includes c = Str.join ";" (host ++ native)).
  { unfold premake_includes, host, native. now rewrite map_app. }
  split; [exact E|]. split; [|split; [|split]].
  - intros Hh Hn. rewrite E. now apply join_app.
  - intros Hne Hall. rewrite E. apply split_join; [exact Hne|].
    rewrite forallb_forall in Hall. apply List.Forall_forall.
    intros x Hx. now apply negb_true_iff, Hall.
  - intros action Hne. apply premake_command_includes.
    intros Hnil. apply Hne. unfold host, native.
    rewrite <- map_app, Hnil. reflexivity.
  - intros st st1 action target <- Ha Ht. now apply premake_launched.
Qed.

Lemma premake_includes_order_witness :
  Str.split ";" (premake_includes Scenario.finalized)
  = ["/usr/include/python3.10"] ++ ["/opt/hxcpp/include"]
  /\ premake_includes Scenario.finalized = "/usr/include/python3.10;/opt/hxcpp/include"
  /\ exists target made,
       launched (proc (snd (premake Scenario.linux Scenario.start)))
       = launched (proc made)
         ++ [(check_call,
              ArgStr (premake_command "gmake2" Scenario.finalized
                      +:+ " --target=" +:+ dquote +:+ target +:+ dquote))]
       /\ launched (proc made) = []
       /\ premake_command "gmake2" Scenario.finalized +:+ " --target=" +:+ dquote +:+ target
          = "premake5 gmake2 --includedirs=" +:+ dquote
            +:+ "/usr/include/python3.10;/opt/hxcpp/include" +:+ dquote
            +:+ " --libdirs=" +:+ dquote +:+ "/usr/libs" +:+ dquote
            +:+ " --target=" +:+ dquote
            +:+ "/home/u/ConvPhase/build/lib.linux-x86_64-3.10/itaxotools/convphase/convphase.cpython-310-x86_64-linux-gnu.so".
Proof.
  pose proof (premake_includes_order Scenario.linux Scenario.finalized) as H.
  cbv zeta in H. destruct H as [_ [Hjoin [Hsplit [_ Hrun]]]].
  split; [|split].
  - apply Hsplit; [discriminate | vm_compute; reflexivity].
  - rewrite Hjoin; [vm_compute; reflexivity | discriminate | discriminate].
  - eexists. eexists. split; [|split].
    + apply (Hrun Scenario.start);
        [reflexivity
        | now apply premake_action_gmake2
        | apply (get_target_path_made Scenario.linux Scenario.start
                   ".cpython-310-x86_64-linux-gnu.so"
                   (Path.parse "build/lib.linux-x86_64-3.10/itaxotools/convphase"));
          vm_compute; reflexivity].
    + reflexivity.
    + vm_compute. reflexivity.
Defined.

(** C6: with the windows flag set, [premake] chooses the action
    [vs2019] when [VisualStudioVersion] is [16.0] and [vs2022] when it
    is [17.0], and for any other value, or none, it raises [Cannot
    determine Visual Studio version] before anything else is done; with
    the flag clear the action is [gmake2].  The generator is run on
    [premake5 <action> ...]. *)
Theorem premake_action_choice (plat : Platform) (st : State) :
  let version :=
    environ_get (encodekey plat) "VisualStudioVersion" (environ (proc st)) in
  (windows (self st) = false -> premake_action plat st = (Ok "gmake2", st))
  /\ (windows (self st) = true -> version = Some "16.0" ->
      premake_action plat st = (Ok "vs2019", st))
  /\ (windows (self st) = true -> version = Some "17.0" ->
      premake_action plat st = (Ok "vs2022", st))
  /\ (windows (self st) = true -> version <> Some "16.0" -> version <> Some "17.0" ->
      premake_action plat st
      = (Raise (Exception "Cannot determine Visual Studio version"), st)
      /\ premake plat st
         = (Raise (Exception "Cannot determine Visual Studio version"), st))
  /\ (forall st1 action target,
        premake_action plat st = (Ok action, st) ->
        get_target_path plat st = (Ok target, st1) ->
        exists rest,
          launched (proc (snd (premake plat st)))
          = launched (proc st1) ++ [(check_call, ArgStr ("premake5 " +:+ action +:+ rest))]).
Proof.
  intros version. split; [|split; [|split; [|split]]].
  - apply premake_action_gmake2.
  - intros Hw Hv. unfold premake_action. run_m. rewrite Hw. fold version.
    now rewrite Hv.
  - intros Hw Hv. unfold premake_action. run_m. rewrite Hw. fold version.
    now rewrite Hv.
  - intros Hw H16 H17.
    assert (E : premake_action plat st
                = (Raise (Exception "Cannot determine Visual Studio version"), st)).
    { unfold premake_action. run_m. rewrite Hw. fold version.
      destruct version as [v|]; cbn [eq_str]; [|reflexivity].
      destruct (String.eqb v "16.0") eqn:E16.
      { apply String.eqb_eq in E16. congruence. }
      destruct (String.eqb v "17.0") eqn:E17.
      { apply String.eqb_eq in E17. congruence. }
      reflexivity. }
    split; [exact E|]. unfold premake. unfold bind at 1. now rewrite E.
  - intros st1 action target Ha Ht.
    rewrite (premake_launched _ _ _ _ _ Ha Ht).
    unfold premake_command.
    destruct (python_includes (self st) ++ hxcpp_includes (self st));
      destruct (python_libs (self st)); eexists; rewrite !append_assoc; reflexivity.
Qed.

Lemma premake_action_choice_witness :
  premake_action Scenario.linux Scenario.start = (Ok "gmake2", Scenario.start)
  /\ premake_action Scenario.win Scenario.win_ready = (Ok "vs2019", Scenario.win_ready)
  /\ premake Scenario.win (mkState (with_windows true Scenario.finalized)
                             (Scenario.process Scenario.tree))
     = (Raise (Exception "Cannot determine Visual Studio version"),
        mkState (with_windows true Scenario.finalized) (Scenario.process Scenario.tree)).
Proof.
  split; [|split].
  - apply (premake_action_choice Scenario.linux Scenario.start). reflexivity.
  - apply (premake_action_choice Scenario.win Scenario.win_ready);
      vm_compute; reflexivity.
  - apply (premake_action_choice Scenario.win
             (mkState (with_windows true Scenario.finalized) (Scenario.process Scenario.tree)));
      [reflexivity | vm_compute; discriminate | vm_compute; discriminate].
Defined.

(** ** Whole runs *)

(** on the Linux host, with the submodules initialised, [run] starts the
    status query, the generator with the action [gmake2], and [make]
    without arguments *)
Example run_linux :
  fst (run Scenario.linux Scenario.start) = Ok tt
  /\ launched (proc (snd (run Scenario.linux Scenario.start)))
     = [(check_output, git_status);
        (check_call,
         ArgStr ("premake5 gmake2 --includedirs=" +:+ dquote
                 +:+ "/usr/include/python3.10;/opt/hxcpp/include" +:+ dquote
                 +:+ " --libdirs=" +:+ dquote +:+ "/usr/libs" +:+ dquote
                 +:+ " --target=" +:+ dquote
                 +:+ "/home/u/ConvPhase/build/lib.linux-x86_64-3.10/itaxotools/convphase/convphase.cpython-310-x86_64-linux-gnu.so"
                 +:+ dquote));
        (check_call, ArgStr "make")].
Proof. split; vm_compute; reflexivity. Qed.

(** on the Windows host, with a submodule to initialise, [run] updates
    the submodules, loads the toolchain, and starts the generator with
    the action [vs2019] and then [msbuild] *)
Example run_windows :
  fst (run Scenario.win Scenario.start_win) = Ok tt
  /\ windows (self (snd (run Scenario.win Scenario.start_win))) = true
  /\ map snd (launched (proc (snd (run Scenario.win Scenario.start_win))))
     = [git_status; git_update;
        ArgStr ("premake5 vs2019 --includedirs=" +:+ dquote
                +:+ "/usr/include/python3.10;/opt/hxcpp/include" +:+ dquote
                +:+ " --libdirs=" +:+ dquote +:+ "/usr/libs" +:+ dquote
                +:+ " --target=" +:+ dquote
                +:+ "/home/u/ConvPhase/build/lib.linux-x86_64-3.10/itaxotools/convphase/convphase.cp310-win_amd64.pyd"
                +:+ dquote);
        ArgStr "msbuild /p:Configuration=Release"].
Proof. repeat split; vm_compute; reflexivity. Qed.

(** a failing step ends the run: without a build tool, [run] raises
    after the generator and nothing follows *)
Example run_without_make :
  fst (run Scenario.no_make Scenario.start)
  = Raise (Exception "Couldn't find build tool: make")
  /\ List.last (launched (proc (snd (run Scenario.no_make Scenario.start))))
       (check_call, ArgOther)
     = (check_call, ArgStr "make").
Proof. split; vm_compute; reflexivity. Qed.


(** * Further properties *)

(** ** [subprocess]: success, malformed arguments, and what is touched *)


Lemma subprocess_malformed (plat : Platform) (f : func) (a : arg) (error : string)
    (missing : option string) (st : State) (e : exn) :
  command_and_tool a = Raise e ->
  subprocess plat f a error missing st = (Raise e, st).
Proof. intros H. unfold subprocess. run_m. now rewrite H. Qed.

(** [subprocess] keeps the command object, the environment, the working
    directory and the files *)
Lemma subprocess_frame (plat : Platform) (f : func) (a : arg) (error : string)
    (missing : option string) (st : State) :
  let st' := snd (subprocess plat f a error missing st) in
  self st' = self st
  /\ environ (proc st') = environ (proc st)
  /\ cwd (proc st') = cwd (proc st)
  /\ files (proc st') = files (proc st).
Proof.
  destruct (command_and_tool a) as [[command tool]|e] eqn:E.
  - rewrite (subprocess_run _ _ _ _ _ _ _ _ E).
    destruct (exec plat f a _); [destruct f|..]; repeat split.
  - rewrite (subprocess_malformed _ _ _ _ _ _ _ E). repeat split.
Qed.

(** X1: when the program runs and returns the status 0, [subprocess]
    returns the status 0 for [check_call], and for [check_output] the
    text of the output, which it prints after the command; neither
    message is used. *)
Theorem subprocess_completed (plat : Platform) (f : func) (a : arg)
    (error : string) (missing : option string) (st : State)
    (command tool out : string) :
  command_and_tool a = Ok (command, tool) ->
  let printed := with_stdout (stdout (proc st) ++ [command]) (proc st) in
  exec plat f a printed = Completed out ->
  fst (subprocess plat f a error missing st)
  = match f with check_output => Ok (PyStr out) | check_call => Ok (PyInt 0) end
  /\ stdout (proc (snd (subprocess plat f a error missing st)))
     = stdout (proc st) ++ command ::
       match f with check_output => [out] | check_call => [] end
  /\ launched (proc (snd (subprocess plat f a error missing st)))
     = launched (proc st) ++ [(f, a)].
Proof.
  intros H printed E. rewrite (subprocess_run _ _ _ _ _ _ _ _ H).
  fold printed. rewrite E.
  destruct f; cbn [fst snd proc stdout launched with_stdout with_launched printed];
    repeat split; try reflexivity.
  now rewrite <- app_assoc.
Qed.

Lemma subprocess_completed_witness :
  fst (subprocess Scenario.linux check_output haxelib_libpath "failed" None Scenario.start)
  = Ok (PyStr "/opt/hxcpp/
")
  /\ stdout (proc (snd (subprocess Scenario.linux check_output haxelib_libpath "failed"
                          None Scenario.start)))
     = [] ++ ["haxelib libpath hxcpp"; "/opt/hxcpp/
"]
  /\ launched (proc (snd (subprocess Scenario.linux check_output haxelib_libpath "failed"
                            None Scenario.start)))
     = [] ++ [(check_output, haxelib_libpath)].
Proof.
  apply (subprocess_completed Scenario.linux check_output haxelib_libpath "failed" None
           Scenario.start "haxelib libpath hxcpp" "haxelib" "/opt/hxcpp/
" eq_refl eq_refl).
Defined.




(** ** Submodules: failures of git, and how status texts compose *)

Lemma no_uninitialized_app (l1 l2 : list string) :
  no_uninitialized (l1 ++ l2) = no_uninitialized l1 && no_uninitialized l2.
Proof.
  induction l1 as [|x l1 IH]; [reflexivity|].
  cbn [no_uninitialized app].
  destruct (Str.startswith "-" (Str.strip x)); [reflexivity | exact IH].
Qed.

(** X4: when git cannot be started for the status query,
    [update_git_submodules] raises the default message that names git,
    and when the query fails it raises [Couldn't check git submodule
    status]; in both cases the update command is not run. *)
Theorem update_git_submodules_status_fails (plat : Platform) (st : State) :
  let printed := with_stdout (stdout (proc st) ++ ["git submodule status"]) (proc st) in
  (exec plat check_output git_status printed = NotStarted ->
   fst (update_git_submodules plat st)
   = Raise (Exception "Couldn't find git, is git installed?")
   /\ launched (proc (snd (update_git_submodules plat st)))
      = launched (proc st) ++ [(check_output, git_status)])
  /\ (exec plat check_output git_status printed = NonZeroExit ->
      fst (update_git_submodules plat st)
      = Raise (Exception "Couldn't check git submodule status")
      /\ launched (proc (snd (update_git_submodules plat st)))
         = launched (proc st) ++ [(check_output, git_status)]).
Proof.
  intros printed.
  assert (R : update_git_submodules plat st
              = match exec plat check_output git_status printed with
                | Completed out => update_git_submodules plat st
                | NotStarted =>
                    (Raise (Exception "Couldn't find git, is git installed?"),
                     mkState (self st)
                       (with_launched (launched (proc st) ++ [(check_output, git_status)])
                          printed))
                | NonZeroExit =>
                    (Raise (Exception "Couldn't check git submodule status"),
                     mkState (self st)
                       (with_launched (launched (proc st) ++ [(check_output, git_status)])
                          printed))
                end).
  { destruct (exec plat check_output git_status printed) eqn:E; [reflexivity|..];
      unfold update_git_submodules, git_submodules_initialized;
      unfold bind at 1; unfold bind at 1;
      rewrite (subprocess_run plat check_output git_status _ _ st
                 "git submodule status" "git" eq_refl);
      fold printed; rewrite E; reflexivity. }
  split; intros E; rewrite R, E; split; reflexivity.
Qed.

Lemma update_git_submodules_status_fails_witness :
  (fst (update_git_submodules Scenario.no_git Scenario.start)
   = Raise (Exception "Couldn't find git, is git installed?")
   /\ launched (proc (snd (update_git_submodules Scenario.no_git Scenario.start)))
      = [] ++ [(check_output, git_status)])
  /\ (fst (update_git_submodules Scenario.failing_git Scenario.start)
      = Raise (Exception "Couldn't check git submodule status")
      /\ launched (proc (snd (update_git_submodules Scenario.failing_git Scenario.start)))
         = [] ++ [(check_output, git_status)]).
Proof.
  split.
  - apply (update_git_submodules_status_fails Scenario.no_git Scenario.start). reflexivity.
  - apply (update_git_submodules_status_fails Scenario.failing_git Scenario.start).
    reflexivity.
Defined.

(** X5: the decision of [git_submodules_initialized] on a status text
    made of two texts, one line after the other, is the conjunction of
    the decisions on each; so an empty text and a text of blank lines
    count as initialised, and a newline at the end of the text changes
    nothing. *)
Theorem status_texts_compose (out1 out2 : string) :
  no_uninitialized (Str.split "010" (out1 +:+ String "010" out2))
  = no_uninitialized (Str.split "010" out1) && no_uninitialized (Str.split "010" out2)
  /\ no_uninitialized (Str.split "010" "") = true
  /\ no_uninitialized (Str.split "010" (out1 +:+ String "010" ""))
     = no_uninitialized (Str.split "010" out1).
Proof.
  split; [|split].
  - now rewrite split_app_sep, no_uninitialized_app.
  - reflexivity.
  - rewrite split_app_sep, no_uninitialized_app.
    cbn [Str.split]. change (no_uninitialized [EmptyString]) with true.
    now rewrite andb_true_r.
Qed.

(** X6: when the status text shows a submodule to initialise, the
    result of [update_git_submodules] is decided by the update command:
    success if it returns the status 0, [Couldn't initialize git
    submodules] if it fails, and the default message that names git if
    it cannot be started. *)
Theorem update_git_submodules_update_outcome (plat : Platform) (st : State) (out : string) :
  let printed := with_stdout (stdout (proc st) ++ ["git submodule status"]) (proc st) in
  exec plat check_output git_status printed = Completed out ->
  (exists l, In l (Str.split "010" out) /\ Str.startswith "-" (Str.strip l) = true) ->
  let ran := with_launched (launched (proc st) ++ [(check_output, git_status)]) printed in
  let shown := with_stdout (stdout ran ++ [out]) ran in
  let printed' :=
    with_stdout (stdout shown ++ ["git submodule update --init --recursive"]) shown in
  fst (update_git_submodules plat st)
  = match exec plat check_call git_update printed' with
    | Completed _ => Ok tt
    | NotStarted => Raise (Exception "Couldn't find git, is git installed?")
    | NonZeroExit => Raise (Exception "Couldn't initialize git submodules")
    end.
Proof.
  intros printed E H ran shown printed'.
  apply no_uninitialized_false in H.
  unfold update_git_submodules. unfold bind at 1.
  rewrite (git_submodules_initialized_run _ _ _ E), H. cbn [negb].
  unfold bind at 1.
  rewrite (subprocess_run plat check_call git_update _ _ _
             "git submodule update --init --recursive" "git" eq_refl).
  cbn [proc self]. fold printed ran shown. fold printed'.
  destruct (exec plat check_call git_update printed'); reflexivity.
Qed.

Lemma update_git_submodules_update_outcome_witness :
  fst (update_git_submodules Scenario.failing_update Scenario.start)
  = Raise (Exception "Couldn't initialize git submodules")
  /\ fst (update_git_submodules Scenario.uninitialized Scenario.start) = Ok tt.
Proof.
  split.
  - rewrite (update_git_submodules_update_outcome Scenario.failing_update Scenario.start
               "-4d5e6f7 src/hxcpp" eq_refl); [reflexivity|].
    exists "-4d5e6f7 src/hxcpp". split; [now left | reflexivity].
  - rewrite (update_git_submodules_update_outcome Scenario.uninitialized Scenario.start
               " 0a1b2c3 src/convphase (heads/main)
-4d5e6f7 src/hxcpp
" eq_refl); [reflexivity|].
    exists "-4d5e6f7 src/hxcpp". split; [simpl; auto | reflexivity].
Defined.

(** ** [find_hxcpp_includes]: failures of the locator, a path that is a
    file, and white space around the output *)

(** X7: when [haxelib] cannot be started, [find_hxcpp_includes] raises
    [Couldn't find haxelib, is haxe installed?], and when it fails,
    [Couldn't find hxcpp libpath, is hxcpp installed? (haxelib install
    hxcpp)]; the command object is as it was and no path is appended. *)
Theorem find_hxcpp_includes_locator_fails (plat : Platform) (st : State) :
  let printed := with_stdout (stdout (proc st) ++ ["haxelib libpath hxcpp"]) (proc st) in
  let ran :=
    mkState (self st)
      (with_launched (launched (proc st) ++ [(check_output, haxelib_libpath)]) printed) in
  (exec plat check_output haxelib_libpath printed = NotStarted ->
   find_hxcpp_includes plat st
   = (Raise (Exception "Couldn't find haxelib, is haxe installed?"), ran))
  /\ (exec plat check_output haxelib_libpath printed = NonZeroExit ->
      find_hxcpp_includes plat st
      = (Raise (Exception
                  "Couldn't find hxcpp libpath, is hxcpp installed? (haxelib install hxcpp)"),
         ran)).
Proof.
  intros printed ran.
  split; intros E; unfold find_hxcpp_includes; unfold bind at 1;
    rewrite (subprocess_run plat check_output haxelib_libpath _ _ st
               "haxelib libpath hxcpp" "haxelib" eq_refl);
    fold printed; rewrite E; reflexivity.
Qed.

Lemma find_hxcpp_includes_locator_fails_witness :
  fst (find_hxcpp_includes Scenario.no_haxelib Scenario.start)
  = Raise (Exception "Couldn't find haxelib, is haxe installed?")
  /\ fst (find_hxcpp_includes Scenario.failing_haxelib Scenario.start)
     = Raise (Exception
                "Couldn't find hxcpp libpath, is hxcpp installed? (haxelib install hxcpp)").
Proof.
  split.
  - rewrite (proj1 (find_hxcpp_includes_locator_fails Scenario.no_haxelib Scenario.start)
               eq_refl).
    reflexivity.
  - rewrite (proj2 (find_hxcpp_includes_locator_fails Scenario.failing_haxelib
                      Scenario.start) eq_refl).
    reflexivity.
Defined.

(** X8: when the include path is a regular file, [find_hxcpp_includes]
    does not raise [Bad hxcpp include]: listing the path raises
    [NotADirectoryError], which leaves the method as it is, and no path
    is appended. *)
Theorem find_hxcpp_includes_regular_file (plat : Platform) (st : State)
    (out : string) (k : list string) :
  let printed := with_stdout (stdout (proc st) ++ ["haxelib libpath hxcpp"]) (proc st) in
  exec plat check_output haxelib_libpath printed = Completed out ->
  let path := Path.joinpath (Path.parse (Str.strip out)) (Path.parse "include") in
  Fs.locate (files (proc st)) (cwd (proc st)) path = inr k ->
  Fs.kind (files (proc st)) k = Some File ->
  fst (find_hxcpp_includes plat st) = Raise (OSError NotADirectoryError)
  /\ self (snd (find_hxcpp_includes plat st)) = self st.
Proof.
  intros printed E path Hk Hf.
  rewrite (find_hxcpp_includes_run plat st out E). fold path.
  unfold Fs.exists_, Fs.iterdir. rewrite Hk, Hf. split; reflexivity.
Qed.

Lemma find_hxcpp_includes_regular_file_witness :
  fst (find_hxcpp_includes Scenario.linux
         (mkState Scenario.fresh (Scenario.process Scenario.tree_with_include_file)))
  = Raise (OSError NotADirectoryError)
  /\ self (snd (find_hxcpp_includes Scenario.linux
                  (mkState Scenario.fresh
                     (Scenario.process Scenario.tree_with_include_file))))
     = Scenario.fresh.
Proof.
  apply (find_hxcpp_includes_regular_file Scenario.linux
           (mkState Scenario.fresh (Scenario.process Scenario.tree_with_include_file))
           "/opt/hxcpp/
" ["opt"; "hxcpp"; "include"]); vm_compute; reflexivity.
Defined.

Lemma lstrip_cases (t : string) :
  Str.lstrip t = "" \/ exists c r, Str.lstrip t = String c r /\ Str.isspace c = false.
Proof.
  induction t as [|c t IH]; [now left|].
  cbn [Str.lstrip]. destruct (Str.isspace c) eqn:E; [exact IH|].
  right. now exists c, t.
Qed.

Lemma rstrip_head (c : ascii) (r : string) :
  Str.isspace c = false -> Str.rstrip (String c r) <> "".
Proof.
  intros H. cbn [Str.rstrip]. destruct (Str.rstrip r); [rewrite H|]; discriminate.
Qed.

(** a string that strips to nothing is white space only *)
Lemma strip_nil_lstrip (t : string) : Str.strip t = "" -> Str.lstrip t = "".
Proof.
  unfold Str.strip. destruct (lstrip_cases t) as [H|[c [r [H Hc]]]]; [easy|].
  rewrite H. intros E. now apply rstrip_head in E.
Qed.

Lemma lstrip_space_prefix (t s : string) :
  Str.lstrip t = "" -> Str.lstrip (t +:+ s) = Str.lstrip s.
Proof.
  induction t as [|c t IH]; [reflexivity|].
  rewrite append_cons. cbn [Str.lstrip].
  destruct (Str.isspace c); [exact IH | discriminate].
Qed.

Lemma rstrip_space (t : string) : Str.lstrip t = "" -> Str.rstrip t = "".
Proof.
  induction t as [|c t IH]; [reflexivity|].
  cbn [Str.lstrip Str.rstrip]. destruct (Str.isspace c); [|discriminate].
  intros H. now rewrite (IH H).
Qed.

Lemma rstrip_space_suffix (s t : string) :
  Str.lstrip t = "" -> Str.rstrip (s +:+ t) = Str.rstrip s.
Proof.
  intros H. induction s as [|c s IH].
  - rewrite append_nil_l. now apply rstrip_space.
  - rewrite append_cons. cbn [Str.rstrip]. now rewrite IH.
Qed.

Lemma lstrip_space_suffix (s t : string) :
  Str.lstrip t = "" ->
  Str.lstrip (s +:+ t)
  = match Str.lstrip s with EmptyString => EmptyString | r => r +:+ t end.
Proof.
  intros H. induction s as [|c s IH].
  - now rewrite append_nil_l.
  - rewrite append_cons. cbn [Str.lstrip].
    destruct (Str.isspace c); [exact IH | reflexivity].
Qed.

Lemma strip_surrounded (lead out trail : string) :
  Str.strip lead = "" -> Str.strip trail = "" ->
  Str.strip (lead +:+ out +:+ trail) = Str.strip out.
Proof.
  intros Hl Ht. apply strip_nil_lstrip in Hl, Ht.
  unfold Str.strip. rewrite (lstrip_space_prefix _ _ Hl), (lstrip_space_suffix _ _ Ht).
  destruct (Str.lstrip out) as [|c r] eqn:E; [reflexivity|].
  now apply rstrip_space_suffix.
Qed.

(** X9: white space before and after the text of the locator (the
    newline that ends its output, say) does not change the include path
    that [find_hxcpp_includes] checks and appends. *)
Theorem hxcpp_include_path_surrounded (lead out trail : string) :
  Str.strip lead = "" -> Str.strip trail = "" ->
  hxcpp_include_path (lead +:+ out +:+ trail) = hxcpp_include_path out.
Proof.
  intros Hl Ht. unfold hxcpp_include_path. now rewrite strip_surrounded.
Qed.

Lemma hxcpp_include_path_surrounded_witness :
  hxcpp_include_path (" " +:+ "/opt/hxcpp/" +:+ "
") = hxcpp_include_path "/opt/hxcpp/".
Proof.
  apply (hxcpp_include_path_surrounded " " "/opt/hxcpp/" "
"); reflexivity.
Defined.

(** ** Option resolution: [find_python_includes] and [finalize_options] *)

(** what [find_hxcpp_includes] does to the command object: one path
    appended on success, nothing otherwise *)
Lemma find_hxcpp_includes_effect (plat : Platform) (st : State) :
  (exists path,
     fst (find_hxcpp_includes plat st) = Ok tt
     /\ self (snd (find_hxcpp_includes plat st))
        = with_hxcpp_includes (hxcpp_includes (self st) ++ [path]) (self st))
  \/ (exists e,
        fst (find_hxcpp_includes plat st) = Raise e
        /\ self (snd (find_hxcpp_includes plat st)) = self st).
Proof.
  remember (find_hxcpp_includes plat st) as r eqn:R.
  unfold find_hxcpp_includes in R. unfold bind at 1 in R.
  match type of R with context [subprocess ?p ?f ?a ?e ?m ?s] =>
    pose proof (subprocess_frame p f a e m s) as F; cbv zeta in F;
    destruct F as [F _]; destruct (subprocess p f a e m s) as [[[out|z]|e'] s1] end;
    cbn [snd] in F.
  - revert R. run_m.
    destruct (Fs.exists_ _ _ _); cbn [negb].
    + destruct (Fs.iterdir _ _ _) as [e|children].
      * intros ->. right. exists (OSError e). split; [reflexivity | exact F].
      * destruct (any_path children); cbn [negb]; intros ->; cbn [fst snd self].
        -- left. eexists. rewrite F. split; reflexivity.
        -- right. eexists. split; [reflexivity | exact F].
    + intros ->. right. eexists. split; [reflexivity | exact F].
  - subst r. right. exists AttributeError. split; [reflexivity | exact F].
  - subst r. right. exists e'. split; [reflexivity | exact F].
Qed.

(** X10: [find_python_includes] always succeeds and only appends to
    [python_includes].  Outside a virtual environment it appends the
    include directory, and the platform-specific one only when its text
    differs; inside a virtual environment it appends the include
    directory, the one of the environment and the platform-specific one,
    whatever their texts are, because there the text is compared with a
    path object. *)
Theorem find_python_includes_appends (plat : Platform) (st : State) :
  let inc := get_python_inc plat false in
  let plat_inc := get_python_inc plat true in
  let added :=
    if String.eqb (exec_prefix plat) (base_exec_prefix plat) then
      if String.eqb plat_inc inc then [Path.parse inc]
      else [Path.parse inc; Path.parse plat_inc]
    else
      [Path.parse inc;
       Path.joinpath (Path.parse (exec_prefix plat)) (Path.parse "include");
       Path.parse plat_inc] in
  find_python_includes plat st
  = (Ok tt,
     mkState (with_python_includes (python_includes (self st) ++ added) (self st))
             (proc st)).
Proof.
  intros inc plat_inc added. unfold find_python_includes, added. run_m.
  fold inc plat_inc.
  destruct (String.eqb (exec_prefix plat) (base_exec_prefix plat)); cbn [negb fst snd self proc].
  - destruct (String.eqb plat_inc inc); cbn [negb]; [reflexivity|].
    unfold with_python_includes; cbn. now rewrite <- app_assoc.
  - unfold with_python_includes; cbn. now rewrite <- !app_assoc.
Qed.

Lemma find_python_includes_effect (plat : Platform) (st : State) :
  exists added,
    added <> []
    /\ find_python_includes plat st
       = (Ok tt,
          mkState (with_python_includes (python_includes (self st) ++ added) (self st))
                  (proc st)).
Proof.
  unfold find_python_includes. run_m.
  destruct (String.eqb (exec_prefix plat) (base_exec_prefix plat)); cbn [negb fst snd self proc].
  - destruct (String.eqb _ _); cbn [negb].
    + eexists. split; [|reflexivity]. discriminate.
    + eexists [_; _]. split; [discriminate|].
      unfold with_python_includes; cbn. now rewrite <- app_assoc.
  - eexists [_; _; _]. split; [discriminate|].
    unfold with_python_includes; cbn. now rewrite <- !app_assoc.
Qed.

(** the command object once [build_lib] and [plat_name] are resolved *)
Lemma finalize_options_unfold (plat : Platform) (st : State) :
  let resolve (o : option string) (d : string) :=
    match o with Some x => Some x | None => Some d end in
  let c :=
    with_plat_name (resolve (plat_name (self st)) (snd (build_options plat)))
      (with_build_lib (resolve (build_lib (self st)) (fst (build_options plat)))
         (self st)) in
  finalize_options plat st
  = bind (find_hxcpp_includes plat)
      (fun _ => bind (find_python_includes plat) (fun _ => find_python_libs plat))
      (mkState c (proc st)).
Proof.
  intros resolve c. unfold finalize_options.
  unfold bind at 1. unfold modify_self at 1. cbn [fst snd self proc].
  unfold bind at 1. unfold modify_self at 1. cbn [fst snd self proc].
  f_equal. f_equal. unfold c, resolve.
  destruct (self st) as [n h p l [b|] [pn|] w i]; reflexivity.
Qed.

(** X11: when [finalize_options] returns, [build_lib] and [plat_name]
    are defined, exactly one path was appended to [hxcpp_includes] and
    one to [python_libs], at least one was appended to
    [python_includes], and the name, the windows flag and the in-place
    flag are as they were. *)
Theorem finalize_options_post (plat : Platform) (st st' : State) :
  finalize_options plat st = (Ok tt, st') ->
  (exists b, build_lib (self st') = Some b)
  /\ (exists p, plat_name (self st') = Some p)
  /\ (exists path, hxcpp_includes (self st') = hxcpp_includes (self st) ++ [path])
  /\ (exists added,
        added <> [] /\ python_includes (self st') = python_includes (self st) ++ added)
  /\ python_libs (self st')
     = python_libs (self st)
       ++ [Path.joinpath (Path.parse (base_exec_prefix plat)) (Path.parse "libs")]
  /\ name (self st') = name (self st)
  /\ windows (self st') = windows (self st)
  /\ inplace (self st') = inplace (self st).
Proof.
  rewrite finalize_options_unfold. cbv zeta.
  set (c := with_plat_name _ _). set (s2 := mkState c (proc st)).
  unfold bind at 1.
  destruct (find_hxcpp_includes_effect plat s2) as [[path [Hr Hs]]|[e [Hr Hs]]];
    destruct (find_hxcpp_includes plat s2) as [r s3]; cbn [fst snd] in Hr, Hs;
    subst r; [|discriminate].
  unfold bind at 1.
  destruct (find_python_includes_effect plat s3) as [added [Hne ->]].
  unfold find_python_libs, modify_self. cbn [self proc].
  intros [= <-]. cbn [self]. rewrite Hs. unfold s2, c. cbn.
  destruct (self st) as [n h p l [b|] [pn|] w i]; cbn;
    repeat split; eauto.
Qed.

Lemma finalize_options_post_witness :
  (exists b, build_lib (self (snd (finalize_options Scenario.linux
               (mkState Scenario.fresh (Scenario.process Scenario.tree))))) = Some b)
  /\ python_libs (self (snd (finalize_options Scenario.linux
               (mkState Scenario.fresh (Scenario.process Scenario.tree)))))
     = [] ++ [Path.joinpath (Path.parse "/usr") (Path.parse "libs")].
Proof.
  assert (E : fst (finalize_options Scenario.linux
                     (mkState Scenario.fresh (Scenario.process Scenario.tree))) = Ok tt)
    by (vm_compute; reflexivity).
  destruct (finalize_options Scenario.linux
              (mkState Scenario.fresh (Scenario.process Scenario.tree))) as [r s'] eqn:F.
  cbn [fst] in E. subst r.
  destruct (finalize_options_post Scenario.linux _ _ F) as [Hb [_ [_ [_ [Hl _]]]]].
  cbn [snd]. split; [exact Hb | exact Hl].
Defined.

(** X12: whether it returns or raises, [finalize_options] keeps a
    [build_lib] and a [plat_name] that were given and takes those of the
    [build] command for the ones that were not. *)
Theorem finalize_options_resolves (plat : Platform) (st : State) :
  build_lib (self (snd (finalize_options plat st)))
  = match build_lib (self st) with
    | Some b => Some b
    | None => Some (fst (build_options plat))
    end
  /\ plat_name (self (snd (finalize_options plat st)))
     = match plat_name (self st) with
       | Some p => Some p
       | None => Some (snd (build_options plat))
       end.
Proof.
  remember (finalize_options plat st) as r eqn:R.
  rewrite finalize_options_unfold in R. cbv zeta in R.
  set (c := with_plat_name _ _) in R. set (s2 := mkState c (proc st)) in R.
  assert (Hc : build_lib c = match build_lib (self st) with
                             | Some b => Some b
                             | None => Some (fst (build_options plat))
                             end
               /\ plat_name c = match plat_name (self st) with
                                | Some p => Some p
                                | None => Some (snd (build_options plat))
                                end)
    by (split; reflexivity).
  destruct Hc as [<- <-].
  unfold bind at 1 in R.
  destruct (find_hxcpp_includes_effect plat s2) as [[path [Hr Hs]]|[e [Hr Hs]]];
    destruct (find_hxcpp_includes plat s2) as [r' s3]; cbn [fst snd] in Hr, Hs;
    subst r'.
  - unfold bind at 1 in R.
    destruct (find_python_includes_effect plat s3) as [added [Hne E]].
    rewrite E in R. unfold find_python_libs, modify_self in R. cbn [self proc] in R.
    subst r. cbn [snd self]. rewrite Hs. split; reflexivity.
  - subst r. cbn [snd]. rewrite Hs. split; reflexivity.
Qed.

(** ** Making the package directory *)

Lemma kind_None_not_root (fs : Files) (k : list string) :
  Fs.kind fs k = None -> k <> [] /\ fs !! k = None.
Proof. destruct k; [discriminate|]. intros H. split; [discriminate | exact H]. Qed.

Lemma kind_insert_ne (fs : Files) (k j : list string) (n : node) :
  j <> k -> Fs.kind (<[k := n]> fs) j = Fs.kind fs j.
Proof.
  intros H. destruct j as [|x j]; [reflexivity|].
  cbn [Fs.kind]. now apply lookup_insert_ne.
Qed.

(** a walk through existing directories is not disturbed by a node made
    where there was none *)
Lemma walk_insert (fs : Files) (k cur comps k' : list string) :
  Fs.kind fs k = None ->
  Fs.walk fs cur comps = inr k' ->
  Fs.walk (<[k := Dir]> fs) cur comps = inr k'.
Proof.
  intros Hk. revert cur. induction comps as [|c comps IH]; intros cur; [easy|].
  cbn [Fs.walk]. destruct (Fs.kind fs cur) as [[]|] eqn:E; try discriminate.
  rewrite kind_insert_ne by congruence. rewrite E. apply IH.
Qed.

Lemma os_mkdir_inr (fs fs' : Files) (wd : string) (p : Path.t) :
  Fs.os_mkdir fs wd p = inr fs' ->
  exists k, Fs.locate fs wd p = inr k /\ Fs.kind fs k = None /\ fs' = <[k := Dir]> fs.
Proof.
  unfold Fs.os_mkdir. destruct (Fs.locate fs wd p) as [e|k]; [discriminate|].
  destruct (Fs.kind fs k) eqn:E; [discriminate|].
  destruct (Fs.kind fs (removelast k)) as [[]|]; try discriminate.
  intros [= <-]. now exists k.
Qed.

Lemma os_mkdir_is_dir (fs fs' : Files) (wd : string) (p : Path.t) :
  Fs.os_mkdir fs wd p = inr fs' -> Fs.is_dir fs' wd p = true.
Proof.
  intros H. apply os_mkdir_inr in H as [k [Hl [Hk ->]]].
  unfold Fs.is_dir, Fs.locate in *. rewrite (walk_insert _ _ _ _ _ Hk Hl).
  apply kind_None_not_root in Hk as [Hne _].
  destruct k as [|x k]; [congruence|].
  cbn [Fs.kind]. now rewrite lookup_insert_eq.
Qed.

Lemma os_mkdir_subseteq (fs fs' : Files) (wd : string) (p : Path.t) :
  Fs.os_mkdir fs wd p = inr fs' -> fs ⊆ fs'.
Proof.
  intros H. apply os_mkdir_inr in H as [k [_ [Hk ->]]].
  apply kind_None_not_root in Hk as [_ Hk]. now apply insert_subseteq.
Qed.

Lemma mkdir_from_eq (fs : Files) (wd r : string) (rparts : list string) :
  Fs.mkdir_from fs wd r rparts
  = let p := Path.mk r (rev rparts) in
    match Fs.os_mkdir fs wd p with
    | inr fs' => inr fs'
    | inl FileNotFoundError =>
        match rparts with
        | [] => inl FileNotFoundError
        | _ :: rparent =>
            match Fs.mkdir_from fs wd r rparent with
            | inl e => inl e
            | inr fs1 =>
                match Fs.os_mkdir fs1 wd p with
                | inr fs2 => inr fs2
                | inl FileNotFoundError => inl FileNotFoundError
                | inl e => if Fs.is_dir fs1 wd p then inr fs1 else inl e
                end
            end
        end
    | inl e => if Fs.is_dir fs wd p then inr fs else inl e
    end.
Proof. destruct rparts; reflexivity. Qed.

(** a directory that was made is there *)
Lemma mkdir_from_is_dir (fs fs' : Files) (wd r : string) (rparts : list string) :
  Fs.mkdir_from fs wd r rparts = inr fs' ->
  Fs.is_dir fs' wd (Path.mk r (rev rparts)) = true.
Proof.
  rewrite mkdir_from_eq. cbv zeta.
  destruct (Fs.os_mkdir fs wd _) as [[]|fs0] eqn:E.
  - destruct rparts as [|c rparent]; [discriminate|].
    destruct (Fs.mkdir_from fs wd r rparent) as [e|fs1]; [discriminate|].
    destruct (Fs.os_mkdir fs1 wd _) as [[]|fs2] eqn:E2.
    + discriminate.
    + destruct (Fs.is_dir fs1 wd _) eqn:D; [|discriminate]. now intros [= <-].
    + destruct (Fs.is_dir fs1 wd _) eqn:D; [|discriminate]. now intros [= <-].
    + intros [= <-]. now apply os_mkdir_is_dir in E2.
  - destruct (Fs.is_dir fs wd _) eqn:D; [|discriminate]. now intros [= <-].
  - destruct (Fs.is_dir fs wd _) eqn:D; [|discriminate]. now intros [= <-].
  - intros [= <-]. now apply os_mkdir_is_dir in E.
Qed.

(** making directories keeps every node that was there *)
Lemma mkdir_from_subseteq (wd r : string) (rparts : list string) :
  forall fs fs', Fs.mkdir_from fs wd r rparts = inr fs' -> fs ⊆ fs'.
Proof.
  induction rparts as [|c rparent IH]; intros fs fs'; rewrite mkdir_from_eq; cbv zeta.
  - destruct (Fs.os_mkdir fs wd _) as [[]|fs0] eqn:E; try discriminate.
    + destruct (Fs.is_dir fs wd _); [|discriminate]. now intros [= <-].
    + destruct (Fs.is_dir fs wd _); [|discriminate]. now intros [= <-].
    + intros [= <-]. now apply os_mkdir_subseteq in E.
  - destruct (Fs.os_mkdir fs wd _) as [[]|fs0] eqn:E.
    + destruct (Fs.mkdir_from fs wd r rparent) as [e|fs1] eqn:E1; [discriminate|].
      apply IH in E1.
      destruct (Fs.os_mkdir fs1 wd _) as [[]|fs2] eqn:E2.
      * discriminate.
      * destruct (Fs.is_dir fs1 wd _); [|discriminate]. now intros [= <-].
      * destruct (Fs.is_dir fs1 wd _); [|discriminate]. now intros [= <-].
      * intros [= <-]. apply os_mkdir_subseteq in E2. now transitivity fs1.
    + destruct (Fs.is_dir fs wd _); [|discriminate]. now intros [= <-].
    + destruct (Fs.is_dir fs wd _); [|discriminate]. now intros [= <-].
    + intros [= <-]. now apply os_mkdir_subseteq in E.
Qed.

Lemma path_rev_rev (p : Path.t) : Path.mk (Path.root p) (rev (rev (Path.parts p))) = p.
Proof. destruct p as [r ps]. cbn. now rewrite rev_involutive. Qed.

Lemma mkdir_parents_is_dir (fs fs' : Files) (wd : string) (p : Path.t) :
  Fs.mkdir_parents fs wd p = inr fs' -> Fs.is_dir fs' wd p = true.
Proof.
  unfold Fs.mkdir_parents. intros H. apply mkdir_from_is_dir in H.
  now rewrite path_rev_rev in H.
Qed.

Lemma mkdir_parents_subseteq (fs fs' : Files) (wd : string) (p : Path.t) :
  Fs.mkdir_parents fs wd p = inr fs' -> fs ⊆ fs'.
Proof. unfold Fs.mkdir_parents. apply mkdir_from_subseteq. Qed.

(** making a directory that is there changes nothing *)
Lemma mkdir_parents_existing (fs : Files) (wd : string) (p : Path.t) :
  Fs.is_dir fs wd p = true -> Fs.mkdir_parents fs wd p = inr fs.
Proof.
  intros D. unfold Fs.mkdir_parents. rewrite mkdir_from_eq. cbv zeta.
  rewrite path_rev_rev.
  assert (E : Fs.os_mkdir fs wd p = inl FileExistsError).
  { unfold Fs.is_dir in D. unfold Fs.os_mkdir.
    destruct (Fs.locate fs wd p) as [e|k]; [discriminate|].
    destruct (Fs.kind fs k) as [[]|]; (discriminate || reflexivity). }
  now rewrite E, D.
Qed.

(** ** [get_target_path]: errors, what is touched, and running it again *)



(** X14: whatever its result, [get_target_path] leaves the command
    object, the environment, the working directory, the output and the
    programs started as they are, and every file and directory that
    was there is still there. *)
Theorem get_target_path_touches_files_only (plat : Platform) (st : State) :
  let st' := snd (get_target_path plat st) in
  self st' = self st
  /\ environ (proc st') = environ (proc st)
  /\ cwd (proc st') = cwd (proc st)
  /\ stdout (proc st') = stdout (proc st)
  /\ launched (proc st') = launched (proc st)
  /\ files (proc st) ⊆ files (proc st').
Proof.
  cbv zeta. rewrite get_target_path_unfold. cbv zeta.
  destruct (get_config_var plat "EXT_SUFFIX") as [suffix|]; [|now repeat split].
  destruct (target_package_path plat (self st) _) as [pkg|e]; [|now repeat split].
  destruct (Fs.mkdir_parents _ _ pkg) as [e|fs'] eqn:E; [now repeat split|].
  cbn [snd self proc]. repeat split. cbn [files with_files].
  now apply mkdir_parents_subseteq in E.
Qed.

(** X15: when [get_target_path] returns a path, the package directory
    is a directory afterwards, and running it again returns the same
    path and changes nothing. *)
Theorem get_target_path_again (plat : Platform) (st st' : State) (target : string) :
  get_target_path plat st = (Ok target, st') ->
  get_target_path plat st' = (Ok target, st')
  /\ exists pkg,
       target_package_path plat (self st) (removelast (Str.split "." (name (self st))))
       = Ok pkg
       /\ Fs.is_dir (files (proc st')) (cwd (proc st')) pkg = true.
Proof.
  rewrite get_target_path_unfold. cbv zeta.
  destruct (get_config_var plat "EXT_SUFFIX") as [suffix|] eqn:Hs; [|discriminate].
  destruct (target_package_path plat (self st) _) as [pkg|e] eqn:Hp; [|discriminate].
  destruct (Fs.mkdir_parents _ _ pkg) as [e|fs'] eqn:Hm; [discriminate|].
  intros [= <- <-]. apply mkdir_parents_is_dir in Hm.
  split; [|now exists pkg].
  rewrite get_target_path_unfold. cbv zeta. cbn [self proc cwd files with_files].
  rewrite Hs, Hp, (mkdir_parents_existing _ _ _ Hm).
  destruct (proc st); reflexivity.
Qed.

Lemma get_target_path_again_witness :
  let made :=
    mkState Scenario.finalized
      (with_files (Scenario.after_mkdir Scenario.start
                     (Path.parse "build/lib.linux-x86_64-3.10/itaxotools/convphase"))
         (Scenario.process Scenario.tree)) in
  fst (get_target_path Scenario.linux made)
  = Ok (Path.str (Path.absolute "/home/u/ConvPhase"
                    (Path.joinpath
                       (Path.parse "build/lib.linux-x86_64-3.10/itaxotools/convphase")
                       (Path.parse ("convphase" +:+ ".cpython-310-x86_64-linux-gnu.so")))))
  /\ snd (get_target_path Scenario.linux made) = made.
Proof.
  intros made.
  assert (E : get_target_path Scenario.linux Scenario.start
              = (Ok (Path.str (Path.absolute "/home/u/ConvPhase"
                       (Path.joinpath
                          (Path.parse "build/lib.linux-x86_64-3.10/itaxotools/convphase")
                          (Path.parse ("convphase" +:+ ".cpython-310-x86_64-linux-gnu.so"))))),
                 made)).
  { apply (get_target_path_made Scenario.linux Scenario.start
             ".cpython-310-x86_64-linux-gnu.so"
             (Path.parse "build/lib.linux-x86_64-3.10/itaxotools/convphase"));
      vm_compute; reflexivity. }
  destruct (get_target_path_again _ _ _ _ E) as [-> _]. split; reflexivity.
Defined.

(** X16: for a target name without a dot there are no package
    segments: the module is placed in [build_lib] itself, and in place
    in the directory the resolver gives for the empty package name. *)
Theorem get_target_path_flat_name (plat : Platform) (st : State) (suffix : string) :
  Str.contains "." (name (self st)) = false ->
  get_config_var plat "EXT_SUFFIX" = Some suffix ->
  let file := Path.parse (name (self st) +:+ suffix) in
  (forall b,
     inplace (self st) = 0%Z -> build_lib (self st) = Some b ->
     Fs.can_make (files (proc st)) (cwd (proc st)) (Path.parse b) = true ->
     fst (get_target_path plat st)
     = Ok (Path.str (Path.absolute (cwd (proc st)) (Path.joinpath (Path.parse b) file))))
  /\ (inplace (self st) <> 0%Z ->
      Fs.can_make (files (proc st)) (cwd (proc st))
        (Path.parse (get_package_dir plat "")) = true ->
      fst (get_target_path plat st)
      = Ok (Path.str (Path.absolute (cwd (proc st))
                        (Path.joinpath (Path.parse (get_package_dir plat "")) file)))).
Proof.
  intros Hn Hs file.
  assert (Hsplit : Str.split "." (name (self st)) = [name (self st)])
    by now apply split_no_sep_id.
  split.
  - intros b Hi Hb Hm.
    rewrite (get_target_path_made plat st suffix (Path.parse b)); rewrite ?Hsplit;
      [reflexivity | exact Hs | | exact Hm].
    unfold target_package_path. rewrite Hi, Hb. cbn [Z.eqb removelast].
    unfold Path.of_segments, Path.joinpath, Path.parse. cbn.
    now rewrite app_nil_r.
  - intros Hi Hm. apply Z.eqb_neq in Hi.
    rewrite (get_target_path_made plat st suffix (Path.parse (get_package_dir plat "")));
      rewrite ?Hsplit; [reflexivity | exact Hs | | exact Hm].
    unfold target_package_path. now rewrite Hi.
Qed.

Lemma get_target_path_flat_name_witness :
  fst (get_target_path Scenario.linux
         (mkState Scenario.flat (Scenario.process Scenario.tree)))
  = Ok (Path.str (Path.absolute "/home/u/ConvPhase"
                    (Path.joinpath (Path.parse "/tmp/out")
                       (Path.parse ("convphase" +:+ ".cpython-310-x86_64-linux-gnu.so"))))).
Proof.
  apply (get_target_path_flat_name Scenario.linux
           (mkState Scenario.flat (Scenario.process Scenario.tree))
           ".cpython-310-x86_64-linux-gnu.so");
    vm_compute; reflexivity.
Defined.

(** ** [premake] and [run]: failures of the generator and the order of
    the programs *)

Lemma get_target_path_frame (plat : Platform) (st : State) :
  self (snd (get_target_path plat st)) = self st
  /\ launched (proc (snd (get_target_path plat st))) = launched (proc st).
Proof.
  rewrite get_target_path_unfold. cbv zeta.
  destruct (get_config_var plat "EXT_SUFFIX") as [suffix|]; [|now split].
  destruct (target_package_path plat (self st) _) as [pkg|e]; [|now split].
  destruct (Fs.mkdir_parents _ _ pkg) as [e|fs']; now split.
Qed.


Lemma premake_command_prefix (action : string) (c : Command) :
  exists rest, premake_command action c = "premake5 " +:+ action +:+ rest.
Proof.
  unfold premake_command.
  destruct (python_includes c ++ hxcpp_includes c); destruct (python_libs c);
    eexists; rewrite ?append_assoc; try reflexivity.
  now rewrite append_nil_r.
Qed.

(** the tool of a command that starts with [premake5 ] is [premake5] *)
Lemma command_and_tool_premake (x : string) :
  command_and_tool (ArgStr ("premake5 " +:+ x))
  = Ok ("premake5 " +:+ x, "premake5").
Proof.
  unfold command_and_tool.
  change ("premake5 " +:+ x) with ("premake5" +:+ String " " x).
  rewrite split_app_sep.
  change (Str.split " " "premake5") with ["premake5"]. reflexivity.
Qed.

(** [premake] once the action is chosen and the target path computed *)
Lemma premake_unfold (plat : Platform) (st st1 : State) (action target : string) :
  premake_action plat st = (Ok action, st) ->
  get_target_path plat st = (Ok target, st1) ->
  premake plat st
  = bind (subprocess plat check_call
            (ArgStr (premake_command action (self st)
                     +:+ " --target=" +:+ dquote +:+ target +:+ dquote))
            ("premake failed for action: " +:+ action) None)
         (fun _ => ret tt) st1.
Proof.
  intros Ha Ht. unfold premake.
  unfold bind at 1. rewrite Ha.
  unfold bind at 1. unfold get at 1. cbn iota beta.
  unfold bind at 1. rewrite Ht. reflexivity.
Qed.

(** X17: once the action is chosen and the target path computed, the
    result of [premake] is decided by the generator: success if it
    returns the status 0, [premake failed for action: <action>] if it
    fails, and [Couldn't find premake5, is premake5 installed?] if it
    cannot be started. *)
Theorem premake_generator_outcome (plat : Platform) (st st1 : State)
    (action target : string) :
  premake_action plat st = (Ok action, st) ->
  get_target_path plat st = (Ok target, st1) ->
  let command :=
    premake_command action (self st) +:+ " --target=" +:+ dquote +:+ target +:+ dquote in
  let printed := with_stdout (stdout (proc st1) ++ [command]) (proc st1) in
  fst (premake plat st)
  = match exec plat check_call (ArgStr command) printed with
    | Completed _ => Ok tt
    | NotStarted => Raise (Exception "Couldn't find premake5, is premake5 installed?")
    | NonZeroExit => Raise (Exception ("premake failed for action: " +:+ action))
    end.
Proof.
  intros Ha Ht command printed.
  rewrite (premake_unfold _ _ _ _ _ Ha Ht). fold command.
  destruct (premake_command_prefix action (self st)) as [rest Hc].
  assert (Hct : command_and_tool (ArgStr command) = Ok (command, "premake5")).
  { unfold command. rewrite Hc, !append_assoc. apply command_and_tool_premake. }
  unfold bind.
  rewrite (subprocess_run _ _ _ _ _ _ _ _ Hct). fold printed.
  destruct (exec plat check_call (ArgStr command) printed); reflexivity.
Qed.

Lemma premake_generator_outcome_witness :
  fst (premake Scenario.failing_premake Scenario.start)
  = Raise (Exception "premake failed for action: gmake2")
  /\ fst (premake Scenario.no_premake Scenario.start)
     = Raise (Exception "Couldn't find premake5, is premake5 installed?").
Proof.
  split.
  - assert (Ht : get_target_path Scenario.failing_premake Scenario.start = _)
      by (apply (get_target_path_made Scenario.failing_premake Scenario.start
                   ".cpython-310-x86_64-linux-gnu.so"
                   (Path.parse "build/lib.linux-x86_64-3.10/itaxotools/convphase"));
          vm_compute; reflexivity).
    rewrite (premake_generator_outcome Scenario.failing_premake Scenario.start _
               "gmake2" _
               (premake_action_gmake2 Scenario.failing_premake Scenario.start eq_refl) Ht).
    vm_compute. reflexivity.
  - assert (Ht : get_target_path Scenario.no_premake Scenario.start = _)
      by (apply (get_target_path_made Scenario.no_premake Scenario.start
                   ".cpython-310-x86_64-linux-gnu.so"
                   (Path.parse "build/lib.linux-x86_64-3.10/itaxotools/convphase"));
          vm_compute; reflexivity).
    rewrite (premake_generator_outcome Scenario.no_premake Scenario.start _
               "gmake2" _
               (premake_action_gmake2 Scenario.no_premake Scenario.start eq_refl) Ht).
    vm_compute. reflexivity.
Defined.

(** X18: [premake] starts the generator only after the action is chosen
    and the target path computed: when the target path cannot be
    computed, [premake] raises the same exception and no program was
    started. *)
Theorem premake_needs_target_path (plat : Platform) (st st1 : State)
    (action : string) (e : exn) :
  premake_action plat st = (Ok action, st) ->
  get_target_path plat st = (Raise e, st1) ->
  premake plat st = (Raise e, st1)
  /\ launched (proc (snd (premake plat st))) = launched (proc st).
Proof.
  intros Ha Ht.
  assert (E : premake plat st = (Raise e, st1)).
  { unfold premake. unfold bind at 1. rewrite Ha.
    unfold bind at 1. unfold get at 1. cbn iota beta.
    unfold bind at 1. now rewrite Ht. }
  rewrite E. split; [reflexivity|]. cbn [snd].
  pose proof (get_target_path_frame plat st) as [_ F]. now rewrite Ht in F.
Qed.

Lemma premake_needs_target_path_witness :
  premake Scenario.no_suffix Scenario.start = (Raise TypeError, Scenario.start)
  /\ launched (proc (snd (premake Scenario.no_suffix Scenario.start)))
     = launched (proc Scenario.start).
Proof.
  apply (premake_needs_target_path Scenario.no_suffix Scenario.start Scenario.start
           "gmake2" TypeError).
  - now apply premake_action_gmake2.
  - rewrite get_target_path_unfold. reflexivity.
Defined.







(** X20: on a platform [win-<rest>] whose toolchain cannot be resolved,
    [set_environ] raises the exception of the resolver: the environment
    and the windows flag are as they were, and only the announcement was
    printed. *)
Theorem set_environ_unresolved (plat : Platform) (st : State) (p : string) (e : exn) :
  plat_name (self st) = Some p ->
  Str.startswith "win-" p = true ->
  let announced :=
    with_stdout (stdout (proc st) ++ ["Loading MSVC environment..."]) (proc st) in
  msvc14_get_vc_env plat (Str.drop 4 p) announced = Raise e ->
  fst (set_environ plat st) = Raise e
  /\ self (snd (set_environ plat st)) = self st
  /\ environ (proc (snd (set_environ plat st))) = environ (proc st)
  /\ stdout (proc (snd (set_environ plat st)))
     = stdout (proc st) ++ ["Loading MSVC environment..."].
Proof.
  intros Hp Hs announced He.
  rewrite (set_environ_resolver_raises plat st p e Hp Hs He). repeat split.
Qed.

Lemma set_environ_unresolved_witness :
  fst (set_environ Scenario.linux Scenario.start_win)
  = Raise (DistutilsPlatformError "Microsoft Visual C++ 14.0 or greater is required.")
  /\ self (snd (set_environ Scenario.linux Scenario.start_win)) = self Scenario.start_win
  /\ environ (proc (snd (set_environ Scenario.linux Scenario.start_win)))
     = environ (proc Scenario.start_win)
  /\ stdout (proc (snd (set_environ Scenario.linux Scenario.start_win)))
     = stdout (proc Scenario.start_win) ++ ["Loading MSVC environment..."].
Proof.
  apply (set_environ_unresolved Scenario.linux Scenario.start_win "win-amd64"
           (DistutilsPlatformError "Microsoft Visual C++ 14.0 or greater is required."));
    reflexivity.
Defined.
